(** * MemoFlow update-config compiler: a shallow embedding of
      [.github/scripts/build_update_config.py] and its verified properties.

    The script reads [manifest.json], the announcement files it lists and an
    optional donor list, validates them and merges them into one document.

    Modelling conventions.
    - A Python [str] is a [string]; each [ascii] is read as the code point
      U+0000..U+00FF of the same number, so the development covers text in
      that range.  [str.isspace], [str.isdigit], [str.lower] and
      [str.isprintable] are CPython's tables restricted to it.
    - A JSON value as [json.loads] returns it is a [json]; a Python [dict] is
      an association list in insertion order whose keys are the dict's keys
      ([dict_get] reads, [dict_set] assigns, [dict_pop] removes).
    - An exception is the [Raise] case of [result]; [ConfigError] carries the
      raise site instead of the formatted message.
    - The directory tree under the root is a function from a path relative to
      the root to the state of the file found there.
    - The exceptions of the model are [ConfigError], the [UnicodeDecodeError]
      of [read_text] and the [KeyError] of a dict lookup.  It covers the runs
      in which [exists] answers, [json.loads] returns or raises
      [JSONDecodeError], and [deepcopy] returns: an error of [exists] other
      than a missing path, a [ValueError] or [RecursionError] of [json.loads]
      and a [RecursionError] of [deepcopy] are outside it, and no statement
      below says that such an exception cannot occur. *)

From Stdlib Require Import String Ascii List ZArith NArith DecimalString Bool Lia.
Import ListNotations.
Open Scope string_scope.

(** ** Python strings *)

Module PyStr.

Definition code (c : ascii) : N := N_of_ascii c.

Definition between (lo hi n : N) : bool := (lo <=? n)%N && (n <=? hi)%N.

(** [str.isspace] on one character. *)
Definition isspace_char (c : ascii) : bool :=
  let n := code c in
  between 9 13 n || between 28 32 n || (n =? 133)%N || (n =? 160)%N.

(** [str.isdigit] on one character: ASCII digits and the superscripts
    U+00B2, U+00B3, U+00B9. *)
Definition isdigit_char (c : ascii) : bool :=
  let n := code c in
  between 48 57 n || (n =? 178)%N || (n =? 179)%N || (n =? 185)%N.

(** [str.isprintable] on one character. *)
Definition isprintable_char (c : ascii) : bool :=
  let n := code c in
  negb (between 0 31 n || between 127 160 n || (n =? 173)%N).

(** [str.lower] on one character. *)
Definition lower_char (c : ascii) : ascii :=
  let n := code c in
  if between 65 90 n || (between 192 222 n && negb (n =? 215)%N)
  then ascii_of_N (n + 32)
  else c.

Fixpoint all_chars (p : ascii -> bool) (s : string) : bool :=
  match s with
  | EmptyString => true
  | String c r => p c && all_chars p r
  end.

Fixpoint any_char (p : ascii -> bool) (s : string) : bool :=
  match s with
  | EmptyString => false
  | String c r => p c || any_char p r
  end.

Fixpoint map_chars (f : ascii -> ascii) (s : string) : string :=
  match s with
  | EmptyString => EmptyString
  | String c r => String (f c) (map_chars f r)
  end.

(** Truth value of a string: [bool(s)]. *)
Definition nonempty (s : string) : bool :=
  match s with
  | EmptyString => false
  | String _ _ => true
  end.

(** [s.isdigit()]: at least one character and all of them digits. *)
Definition isdigit (s : string) : bool := nonempty s && all_chars isdigit_char s.

Definition lower (s : string) : string := map_chars lower_char s.

Fixpoint lstrip (s : string) : string :=
  match s with
  | EmptyString => EmptyString
  | String c r => if isspace_char c then lstrip r else s
  end.

Fixpoint rstrip (s : string) : string :=
  match s with
  | EmptyString => EmptyString
  | String c r =>
      match rstrip r with
      | EmptyString => if isspace_char c then EmptyString else String c EmptyString
      | kept => String c kept
      end
  end.

(** [s.strip()] *)
Definition strip (s : string) : string := rstrip (lstrip s).

(** [str(n)] for an [int]. *)
Definition of_int (z : Z) : string := NilZero.string_of_int (Z.to_int z).

Definition squote : ascii := ascii_of_N 39.
Definition dquote : ascii := ascii_of_N 34.
Definition backslash : ascii := ascii_of_N 92.

Definition hex_digit (n : N) : ascii :=
  if (n <? 10)%N then ascii_of_N (48 + n) else ascii_of_N (87 + n).

Definition hex_escape (c : ascii) : string :=
  String backslash
    (String "x" (String (hex_digit (code c / 16)) (String (hex_digit (code c mod 16)) EmptyString))).

Definition repr_char (quote c : ascii) : string :=
  let n := code c in
  if Ascii.eqb c quote || Ascii.eqb c backslash then String backslash (String c EmptyString)
  else if (n =? 9)%N then String backslash "t"
  else if (n =? 10)%N then String backslash "n"
  else if (n =? 13)%N then String backslash "r"
  else if (n <? 32)%N || (n =? 127)%N then hex_escape c
  else if (n <? 127)%N then String c EmptyString
  else if isprintable_char c then String c EmptyString
  else hex_escape c.

Fixpoint concat_map (f : ascii -> string) (s : string) : string :=
  match s with
  | EmptyString => EmptyString
  | String c r => f c ++ concat_map f r
  end.

(** [repr(s)] for a [str]: single quotes unless the text holds a single
    quote and no double quote. *)
Definition repr (s : string) : string :=
  let quote :=
    if any_char (Ascii.eqb squote) s && negb (any_char (Ascii.eqb dquote) s)
    then dquote else squote in
  String quote (concat_map (repr_char quote) s ++ String quote EmptyString).

(** [sep.join(parts)] *)
Fixpoint join (sep : string) (parts : list string) : string :=
  match parts with
  | [] => EmptyString
  | [p] => p
  | p :: rest => p ++ sep ++ join sep rest
  end.

End PyStr.

(** ** JSON values and Python dicts *)

(** The values [json.loads] builds.  A [float] is kept as the text [repr]
    prints for it, which names it uniquely. *)
#[warnings="-register-all"]
Inductive json : Type :=
| JNull : json
| JBool (b : bool) : json
| JInt (n : Z) : json
| JFloat (repr : string) : json
| JStr (s : string) : json
| JList (items : list json) : json
| JObj (fields : list (string * json)) : json.

Definition dict : Type := list (string * json).

Section Dict.
Context {V : Type}.

(** [d.get(k)] *)
Fixpoint dict_get (k : string) (d : list (string * V)) : option V :=
  match d with
  | [] => None
  | (k', v) :: rest => if String.eqb k k' then Some v else dict_get k rest
  end.

(** [d.get(k, default)] *)
Definition dict_get_default (k : string) (default : V) (d : list (string * V)) : V :=
  match dict_get k d with
  | Some v => v
  | None => default
  end.

(** [k in d] *)
Definition dict_mem (k : string) (d : list (string * V)) : bool :=
  match dict_get k d with
  | Some _ => true
  | None => false
  end.

(** [d[k] = v]: an existing key keeps its place, a new key goes last. *)
Fixpoint dict_set (k : string) (v : V) (d : list (string * V)) : list (string * V) :=
  match d with
  | [] => [(k, v)]
  | (k', v') :: rest =>
      if String.eqb k k' then (k', v) :: rest else (k', v') :: dict_set k v rest
  end.

(** [d.pop(k, None)], the popped value discarded. *)
Fixpoint dict_pop (k : string) (d : list (string * V)) : list (string * V) :=
  match d with
  | [] => []
  | (k', v') :: rest =>
      if String.eqb k k' then dict_pop k rest else (k', v') :: dict_pop k rest
  end.

Definition dict_keys (d : list (string * V)) : list string := map fst d.

End Dict.

(** ** Python builtins on JSON values *)

(** [repr(x)] *)
Fixpoint py_repr (x : json) : string :=
  match x with
  | JNull => "None"
  | JBool true => "True"
  | JBool false => "False"
  | JInt n => PyStr.of_int n
  | JFloat r => r
  | JStr s => PyStr.repr s
  | JList items => "[" ++ PyStr.join ", " (map py_repr items) ++ "]"
  | JObj fields =>
      "{" ++ PyStr.join ", "
               (map (fun kv => PyStr.repr (fst kv) ++ ": " ++ py_repr (snd kv)) fields)
          ++ "}"
  end.

(** [str(x)] *)
Definition py_str (x : json) : string :=
  match x with
  | JStr s => s
  | _ => py_repr x
  end.

(** [bool(x)] *)
Definition py_bool (x : json) : bool :=
  match x with
  | JNull => false
  | JBool b => b
  | JInt n => negb (n =? 0)%Z
  | JFloat r => negb (String.eqb r "0.0" || String.eqb r "-0.0")
  | JStr s => PyStr.nonempty s
  | JList items => match items with [] => false | _ => true end
  | JObj fields => match fields with [] => false | _ => true end
  end.


(** ** Exceptions *)

(** The raise sites of [ConfigError], in source order. *)
Inductive config_error : Type :=
| FailedReading (path : string)
| InvalidJson (path : string)
| JsonObjectRequired (path : string)
| JsonArrayRequired (path : string)
| InvalidAnnouncementId (where_ : string) (value : json)
| MissingAnnouncementFile (path : string)
| AnnouncementIdMismatch (path expected got : string)
| ManifestNotFound (path : string)
| AnnouncementIdsNotNonEmptyArray
| AnnouncementIdsDuplicates
| LatestNotInAnnouncementIds (latest : string)
| DonorsFileNotFound (path : string).

(** [ConfigError] is what [main] catches; the other two escape it. *)
Inductive exception : Type :=
| ConfigError (e : config_error)
| UnicodeDecodeError (path : string)
| KeyError (key : string).

Inductive result (A : Type) : Type :=
| Ok (a : A)
| Raise (e : exception).

Arguments Ok {A} a.
Arguments Raise {A} e.

Definition bind {A B : Type} (r : result A) (k : A -> result B) : result B :=
  match r with
  | Ok a => k a
  | Raise e => Raise e
  end.

Notation "x <- r ;; k" := (bind r (fun x => k))
  (at level 61, r at next level, right associativity).

(** ** The directory tree under the root *)

(** What reading and decoding a file that exists gives. *)
Inductive file : Type :=
| Unreadable            (* [read_text] raises [OSError] *)
| NotUtf8               (* [read_text] raises [UnicodeDecodeError] *)
| NotJson               (* [json.loads] raises [JSONDecodeError] *)
| Json (data : json).   (* [json.loads] returns [data] *)

(** Paths are relative to the root; [None] is a path that does not exist. *)
Definition filesystem : Type := string -> option file.

(** [path.exists()], for the paths on which it answers. *)
Definition path_exists (fs : filesystem) (path : string) : bool :=
  match fs path with
  | Some _ => true
  | None => false
  end.

(** [path.read_text(encoding="utf-8")] followed by [json.loads], as
    [_read_json] and [_read_json_list] both start, for the texts on which
    [json.loads] returns or raises [JSONDecodeError]. *)
Definition read_and_parse (fs : filesystem) (path : string) : result json :=
  match fs path with
  | None | Some Unreadable => Raise (ConfigError (FailedReading path))
  | Some NotUtf8 => Raise (UnicodeDecodeError path)
  | Some NotJson => Raise (ConfigError (InvalidJson path))
  | Some (Json data) => Ok data
  end.

Definition _read_json (fs : filesystem) (path : string) : result dict :=
  data <- read_and_parse fs path ;;
  match data with
  | JObj fields => Ok fields
  | _ => Raise (ConfigError (JsonObjectRequired path))
  end.

Definition _read_json_list (fs : filesystem) (path : string) : result (list json) :=
  data <- read_and_parse fs path ;;
  match data with
  | JList items => Ok items
  | _ => Raise (ConfigError (JsonArrayRequired path))
  end.

(** ** Identifiers *)

(** [isinstance(value, int)] holds for [bool] too, a subclass of [int]. *)
Definition _normalize_id (value : json) (where_ : string) : result string :=
  match value with
  | JBool _ | JInt _ => Ok (py_str value)
  | JStr s =>
      let text := PyStr.strip s in
      if PyStr.isdigit text then Ok text
      else Raise (ConfigError (InvalidAnnouncementId where_ value))
  | _ => Raise (ConfigError (InvalidAnnouncementId where_ value))
  end.

(** ** Announcements *)

Definition announcement_path (ann_id : string) : string :=
  "announcements/" ++ ann_id ++ ".json".

(** The loop of [_load_announcements], [announcements] being the dict built
    so far. *)
Fixpoint load_announcements_from (fs : filesystem) (ids : list string)
    (announcements : list (string * dict)) : result (list (string * dict)) :=
  match ids with
  | [] => Ok announcements
  | ann_id :: rest =>
      let path := announcement_path ann_id in
      if negb (path_exists fs path)
      then Raise (ConfigError (MissingAnnouncementFile path))
      else
        data <- _read_json fs path ;;
        file_id <- _normalize_id (dict_get_default "id" JNull data) path ;;
        if negb (String.eqb file_id ann_id)
        then Raise (ConfigError (AnnouncementIdMismatch path ann_id file_id))
        else load_announcements_from fs rest (dict_set ann_id data announcements)
  end.

Definition _load_announcements (fs : filesystem) (ids : list string)
    : result (list (string * dict)) :=
  load_announcements_from fs ids [].

(** ** Release notes *)

Definition is_nil {A : Type} (l : list A) : bool :=
  match l with
  | [] => true
  | _ :: _ => false
  end.

(** [[str(x).strip() for x in xs if str(x).strip()]] *)
Definition stripped_nonempty (xs : list json) : list string :=
  filter PyStr.nonempty (map (fun x => PyStr.strip (py_str x)) xs).

(** The texts kept for one language of a localized [contents]. *)
Definition localized_values (value : json) : list string :=
  match value with
  | JStr s => if PyStr.nonempty (PyStr.strip s) then [PyStr.strip s] else []
  | JList xs => stripped_nonempty xs
  | _ => []
  end.

(** The loop over [contents.items()], [localized] being the dict built so
    far.  Keys of a parsed JSON object are always strings. *)
Fixpoint localize (contents : dict) (localized : dict) : dict :=
  match contents with
  | [] => localized
  | (key, value) :: rest =>
      let lang := PyStr.lower (PyStr.strip key) in
      if negb (PyStr.nonempty lang) then localize rest localized
      else
        let values := localized_values value in
        if is_nil values then localize rest localized
        else localize rest (dict_set lang (JList (map JStr values)) localized)
  end.

Definition normalize_contents (contents : json) : json :=
  match contents with
  | JObj fields => JObj (localize fields [])
  | JStr s => if PyStr.nonempty (PyStr.strip s) then JList [JStr (PyStr.strip s)] else JList []
  | JList xs => JList (map JStr (stripped_nonempty xs))
  | _ => JList []
  end.

(** [category] and [normalized_contents] of the loop body. *)
Definition item_category (fields : dict) : string :=
  PyStr.strip (py_str (dict_get_default "category" (JStr "") fields)).

Definition item_contents (fields : dict) : json :=
  normalize_contents (dict_get_default "contents" JNull fields).

(** One turn of the loop over [items]: the entries to append. *)
Definition normalize_item (item : json) : list json :=
  match item with
  | JObj fields =>
      let category := item_category fields in
      let normalized_contents := item_contents fields in
      if negb (PyStr.nonempty category) && negb (py_bool normalized_contents)
      then []
      else [JObj [("category", JStr category); ("contents", normalized_contents)]]
  | _ => []
  end.

(** The loop over [items], [normalized_items] being the list built so far. *)
Fixpoint normalize_items_from (items : list json) (normalized_items : list json) : list json :=
  match items with
  | [] => normalized_items
  | item :: rest => normalize_items_from rest (normalized_items ++ normalize_item item)
  end.

Definition release_version (entry : dict) : string :=
  PyStr.strip (py_str (dict_get_default "version" (JStr "") entry)).

Definition release_date (entry : dict) : string :=
  PyStr.strip (py_str (dict_get_default "date" (JStr "") entry)).

(** [items] as the loop receives it: [[]] unless the field is a list. *)
Definition entry_items (entry : dict) : list json :=
  match dict_get_default "items" JNull entry with
  | JList xs => xs
  | _ => []
  end.

Definition release_items (entry : dict) : list json :=
  normalize_items_from (entry_items entry) [].

Definition _build_release_note (entry : dict) : option json :=
  let version := release_version entry in
  let date_label := release_date entry in
  let normalized_items := release_items entry in
  if negb (PyStr.nonempty version) && is_nil normalized_items
  then None
  else Some (JObj [("version", JStr version); ("date", JStr date_label);
                   ("items", JList normalized_items)]).

(** ** Overrides *)

Record overrides : Type := {
  tag_version : string;
  android_url : string;
  ios_url : string;
  windows_url : string;
  android_version : string;
  ios_version : string;
  windows_version : string
}.

(** The platform objects live inside [version_info] and are mutated in place;
    the model threads [version_info] and names a platform object by its key. *)
Definition get_platform (version_info : dict) (name : string) : option dict :=
  match dict_get name version_info with
  | Some (JObj fields) => Some fields
  | _ => None
  end.

Definition is_some {A : Type} (o : option A) : bool :=
  match o with
  | Some _ => true
  | None => false
  end.

(** [target[key] = text] on the platform object [name]. *)
Definition assign_platform (version_info : dict) (name key text : string) : dict :=
  match get_platform version_info name with
  | None => version_info
  | Some target => dict_set name (JObj (dict_set key (JStr text) target)) version_info
  end.

Definition set_nonempty (version_info : dict) (name key value : string) : dict :=
  match get_platform version_info name with
  | None => version_info
  | Some _ =>
      let text := PyStr.strip value in
      if PyStr.nonempty text then assign_platform version_info name key text
      else version_info
  end.

(** One [if] of the tag block. *)
Definition default_to_tag (version_info : dict) (name url version tag_text : string) : dict :=
  if is_some (get_platform version_info name)
     && PyStr.nonempty (PyStr.strip url)
     && negb (PyStr.nonempty (PyStr.strip version))
  then assign_platform version_info name "latest_version" tag_text
  else version_info.

Definition override_version_info (version_info : dict) (o : overrides) : dict :=
  let vi := set_nonempty version_info "android" "url" (android_url o) in
  let vi := set_nonempty vi "ios" "url" (ios_url o) in
  let vi := set_nonempty vi "windows" "url" (windows_url o) in
  let vi := set_nonempty vi "android" "latest_version" (android_version o) in
  let vi := set_nonempty vi "ios" "latest_version" (ios_version o) in
  let vi := set_nonempty vi "windows" "latest_version" (windows_version o) in
  let tag_text := PyStr.strip (tag_version o) in
  if PyStr.nonempty tag_text then
    let vi := default_to_tag vi "android" (android_url o) (android_version o) tag_text in
    let vi := default_to_tag vi "windows" (windows_url o) (windows_version o) tag_text in
    default_to_tag vi "ios" (ios_url o) (ios_version o) tag_text
  else vi.

(** [_apply_overrides] returns nothing and mutates [merged]; the model returns
    [merged] as it is afterwards. *)
Definition _apply_overrides (merged : dict) (o : overrides) : dict :=
  match dict_get "version_info" merged with
  | Some (JObj version_info) =>
      dict_set "version_info" (JObj (override_version_info version_info o)) merged
  | _ => merged
  end.

(** ** The compiler *)

Record summary : Type := {
  summary_announcement_ids : list string;
  summary_latest_announcement_id : string;
  release_notes_count : nat;
  donors_count : nat
}.

(** [d[k]] *)
Definition subscript {V : Type} (k : string) (d : list (string * V)) : result V :=
  match dict_get k d with
  | Some v => Ok v
  | None => Raise (KeyError k)
  end.

(** [[_normalize_id(value, where=...) for value in raw]] *)
Fixpoint normalize_ids (raw : list json) (where_ : string) : result (list string) :=
  match raw with
  | [] => Ok []
  | value :: rest =>
      first <- _normalize_id value where_ ;;
      others <- normalize_ids rest where_ ;;
      Ok (first :: others)
  end.

(** [len(set(ids))] *)
Definition distinct_count (ids : list string) : nat :=
  length (nodup string_dec ids).

(** [x in ids] *)
Definition list_mem (x : string) (ids : list string) : bool :=
  existsb (String.eqb x) ids.

(** Lines 199-207 of [compile_update_config]. *)
Definition read_announcement_ids (manifest : dict) : result (list string) :=
  match dict_get_default "announcement_ids" JNull manifest with
  | JList (first :: others) =>
      announcement_ids <- normalize_ids (first :: others) "manifest.announcement_ids" ;;
      if negb (distinct_count announcement_ids =? length announcement_ids)%nat
      then Raise (ConfigError AnnouncementIdsDuplicates)
      else Ok announcement_ids
  | _ => Raise (ConfigError AnnouncementIdsNotNonEmptyArray)
  end.

(** Lines 209-214. *)
Definition read_latest_announcement_id (manifest : dict) (announcement_ids : list string)
    : result string :=
  latest_announcement_id <-
    _normalize_id (dict_get_default "latest_announcement_id" JNull manifest)
                  "manifest.latest_announcement_id" ;;
  if negb (list_mem latest_announcement_id announcement_ids)
  then Raise (ConfigError (LatestNotInAnnouncementIds latest_announcement_id))
  else Ok latest_announcement_id.

Definition donors_file_of (manifest : dict) : string :=
  PyStr.strip (py_str (dict_get_default "donors_file" (JStr "donors.json") manifest)).

(** Lines 218-225. *)
Definition load_donors (fs : filesystem) (manifest : dict) : result (list json) :=
  let donors_file := donors_file_of manifest in
  if PyStr.nonempty donors_file then
    if path_exists fs donors_file then _read_json_list fs donors_file
    else if negb (String.eqb donors_file "donors.json")
         then Raise (ConfigError (DonorsFileNotFound donors_file))
         else Ok []
  else Ok [].

(** Lines 228-232, [release_notes] being the list built so far. *)
Fixpoint release_notes_from (announcements : list (string * dict)) (ids : list string)
    (release_notes : list json) : result (list json) :=
  match ids with
  | [] => Ok release_notes
  | ann_id :: rest =>
      entry <- subscript ann_id announcements ;;
      match _build_release_note entry with
      | Some note => release_notes_from announcements rest (release_notes ++ [note])
      | None => release_notes_from announcements rest release_notes
      end
  end.

Definition announcement_of (latest_announcement_id : string) (active : dict) : json :=
  JObj [("id", JStr latest_announcement_id);
        ("title", JStr (PyStr.strip (py_str (dict_get_default "title" (JStr "") active))));
        ("show_when_up_to_date",
          JBool (py_bool (dict_get_default "show_when_up_to_date" (JBool false) active)));
        ("contents", dict_get_default "contents" (JObj []) active);
        ("new_donor_ids", dict_get_default "new_donor_ids" (JList []) active)].

(** Lines 234-248; [deepcopy] is the identity on values. *)
Definition assemble (manifest : dict) (latest_announcement_id : string) (active : dict)
    (donors release_notes : list json) : dict :=
  let merged := manifest in
  let merged := dict_pop "announcement_ids" merged in
  let merged := dict_pop "latest_announcement_id" merged in
  let merged := dict_pop "donors_file" merged in
  let merged := dict_pop "announcement_tag_index" merged in
  let merged := dict_set "announcement" (announcement_of latest_announcement_id active) merged in
  let merged := dict_set "donors" (JList donors) merged in
  dict_set "release_notes" (JList release_notes) merged.

Definition manifest_path : string := "manifest.json".

Definition compile_update_config (fs : filesystem) : result (dict * summary) :=
  if negb (path_exists fs manifest_path)
  then Raise (ConfigError (ManifestNotFound manifest_path))
  else
    manifest <- _read_json fs manifest_path ;;
    announcement_ids <- read_announcement_ids manifest ;;
    latest_announcement_id <- read_latest_announcement_id manifest announcement_ids ;;
    announcements <- _load_announcements fs announcement_ids ;;
    donors <- load_donors fs manifest ;;
    active <- subscript latest_announcement_id announcements ;;
    release_notes <- release_notes_from announcements announcement_ids [] ;;
    Ok (assemble manifest latest_announcement_id active donors release_notes,
        {| summary_announcement_ids := announcement_ids;
           summary_latest_announcement_id := latest_announcement_id;
           release_notes_count := length release_notes;
           donors_count := length donors |}).

(** ** The example scenario of the documentation *)

Module Scenario.

Definition manifest : json :=
  JObj [("schema_version", JInt 1);
        ("announcement_ids", JList [JInt 1; JInt 2]);
        ("latest_announcement_id", JInt 2)].

Definition fs : filesystem := fun path =>
  if String.eqb path "manifest.json" then Some (Json manifest)
  else if String.eqb path "announcements/1.json"
  then Some (Json (JObj [("id", JInt 1); ("version", JStr "1.0"); ("items", JList [])]))
  else if String.eqb path "announcements/2.json"
  then Some (Json (JObj [("id", JInt 2); ("title", JStr "Hi");
                         ("show_when_up_to_date", JBool true)]))
  else None.

Definition expected : dict :=
  [("schema_version", JInt 1);
   ("announcement",
     JObj [("id", JStr "2"); ("title", JStr "Hi"); ("show_when_up_to_date", JBool true);
           ("contents", JObj []); ("new_donor_ids", JList [])]);
   ("donors", JList []);
   ("release_notes",
     JList [JObj [("version", JStr "1.0"); ("date", JStr ""); ("items", JList [])]])].

End Scenario.

(** What one announcement id contributes to [release_notes]. *)
Definition note_of (announcements : list (string * dict)) (ann_id : string) : list json :=
  match dict_get ann_id announcements with
  | Some entry =>
      match _build_release_note entry with
      | Some note => [note]
      | None => []
      end
  | None => []
  end.

(** ** Sample inputs *)

Module Samples.

(** Three loaded announcements: "1" has a version and items of every kind,
    "2" has neither version nor items, "3" has a version only. *)
Definition announcements : list (string * dict) :=
  [("1", [("id", JInt 1); ("version", JStr "1.0");
          ("items",
            JList [JObj [("category", JStr " "); ("contents", JStr "")];
                   JObj [("category", JStr "Fix"); ("contents", JList [JStr "a"; JStr " "])];
                   JStr "junk";
                   JObj [("contents", JObj [("EN ", JStr " hello "); ("de", JList [])])]])]);
   ("2", [("id", JInt 2); ("title", JStr "Hi"); ("items", JList [JObj []])]);
   ("3", [("id", JStr "3"); ("version", JStr " 2.0 "); ("date", JInt 2024)])].

Definition ids : list string := ["3"; "1"; "2"].

Definition notes : list json :=
  [JObj [("version", JStr "2.0"); ("date", JStr "2024"); ("items", JList [])];
   JObj [("version", JStr "1.0"); ("date", JStr "");
         ("items",
           JList [JObj [("category", JStr "Fix"); ("contents", JList [JStr "a"])];
                  JObj [("category", JStr "");
                        ("contents", JObj [("en", JList [JStr "hello"])])]])]].

End Samples.

(** The directory tree that holds exactly the listed files. *)
Definition tree (files : list (string * file)) : filesystem :=
  fun path => dict_get path files.

Module Inputs.

(** [announcements/1.json] says it is announcement 2. *)
Definition misnamed : filesystem :=
  tree [("manifest.json",
          Json (JObj [("announcement_ids", JList [JInt 1]);
                      ("latest_announcement_id", JInt 1)]));
        ("announcements/1.json", Json (JObj [("id", JInt 2); ("title", JStr "two")]))].

(** The ids 1 and "1" normalize to the same string. *)
Definition duplicated_manifest : dict :=
  [("announcement_ids", JList [JInt 1; JStr " 1"]); ("latest_announcement_id", JInt 1)].

Definition duplicated : filesystem :=
  tree [("manifest.json", Json (JObj duplicated_manifest));
        ("announcements/1.json", Json (JObj [("id", JInt 1)]))].

End Inputs.

Module Unlisted.

(** The latest id 3 is not one of the declared ids. *)
Definition manifest : dict :=
  [("announcement_ids", JList [JInt 1; JInt 2]); ("latest_announcement_id", JStr "3")].

Definition fs : filesystem :=
  tree [("manifest.json", Json (JObj manifest));
        ("announcements/1.json", Json (JObj [("id", JInt 1)]));
        ("announcements/2.json", Json (JObj [("id", JInt 2)]));
        ("announcements/3.json", Json (JObj [("id", JInt 3)]))].

End Unlisted.

(** The exception is the one of line 212. *)
Definition is_latest_error (e : exception) : bool :=
  match e with
  | ConfigError (LatestNotInAnnouncementIds _) => true
  | _ => false
  end.

(** The keys [compile_update_config] pops from the copy of the manifest, and
    the keys it assigns. *)
Definition internal_keys : list string :=
  ["announcement_ids"; "latest_announcement_id"; "donors_file"; "announcement_tag_index"].

Definition injected_keys : list string := ["announcement"; "donors"; "release_notes"].

Module BlankDonorsFile.

(** [donors_file] is blank; [root_state] is what the path of the root
    itself, which the blank name resolves to, is taken to be. *)
Definition manifest : dict :=
  [("schema_version", JInt 1);
   ("donors_file", JStr " ");
   ("announcement_ids", JList [JInt 1]);
   ("latest_announcement_id", JInt 1)].

Definition fs (root_state : option file) : filesystem := fun path =>
  if String.eqb path "" then root_state
  else tree [("manifest.json", Json (JObj manifest));
             ("announcements/1.json", Json (JObj [("id", JInt 1); ("title", JStr "Hi")]))]
            path.

Definition expected : dict * summary :=
  ([("schema_version", JInt 1);
    ("announcement",
      JObj [("id", JStr "1"); ("title", JStr "Hi"); ("show_when_up_to_date", JBool false);
            ("contents", JObj []); ("new_donor_ids", JList [])]);
    ("donors", JList []);
    ("release_notes", JList [])],
   {| summary_announcement_ids := ["1"];
      summary_latest_announcement_id := "1";
      release_notes_count := 0;
      donors_count := 0 |}).

End BlankDonorsFile.

Module Donors.

(** A manifest that names [donors_file], and trees with and without it. *)
Definition manifest (donors_file : string) : dict :=
  [("donors_file", JStr donors_file);
   ("announcement_ids", JList [JInt 1]);
   ("latest_announcement_id", JInt 1)].

Definition fs (donors_file : string) (donors : option file) : filesystem := fun path =>
  if String.eqb path donors_file then donors
  else tree [("manifest.json", Json (JObj (manifest donors_file)));
             ("announcements/1.json", Json (JObj [("id", JInt 1)]))]
            path.

(** The donors file is [supporters.json] and holds one donor. *)
Definition supporters : filesystem :=
  fs "supporters.json" (Some (Json (JList [JStr "ada"]))).

(** The donors file is [custom.json] and is absent. *)
Definition custom_absent : filesystem := fs "custom.json" None.

(** What compiling gives when the donors file holds [donors]. *)
Definition expected (donors : list json) : dict * summary :=
  ([("announcement",
      JObj [("id", JStr "1"); ("title", JStr ""); ("show_when_up_to_date", JBool false);
            ("contents", JObj []); ("new_donor_ids", JList [])]);
    ("donors", JList donors);
    ("release_notes", JList [])],
   {| summary_announcement_ids := ["1"];
      summary_latest_announcement_id := "1";
      release_notes_count := 0;
      donors_count := length donors |}).

End Donors.

(** The three platforms [_apply_overrides] knows, with the key and the
    override arguments of each. *)
Inductive platform : Type := Android | Ios | Windows.

Definition platform_name (p : platform) : string :=
  match p with
  | Android => "android"
  | Ios => "ios"
  | Windows => "windows"
  end.

Definition url_override (o : overrides) (p : platform) : string :=
  match p with
  | Android => android_url o
  | Ios => ios_url o
  | Windows => windows_url o
  end.

Definition version_override (o : overrides) (p : platform) : string :=
  match p with
  | Android => android_version o
  | Ios => ios_version o
  | Windows => windows_version o
  end.

(** [version_info[name][key]] where [version_info[name]] is an object. *)
Definition platform_field (version_info : dict) (name key : string) : option json :=
  match get_platform version_info name with
  | Some target => dict_get key target
  | None => None
  end.

(** [merged["version_info"][name]["latest_version"]] *)
Definition latest_version_of (merged : dict) (name : string) : option json :=
  match dict_get "version_info" merged with
  | Some (JObj version_info) => platform_field version_info name "latest_version"
  | _ => None
  end.

Module Release.

Definition merged : dict :=
  [("schema_version", JInt 1);
   ("version_info",
     JObj [("android", JObj [("url", JStr "https://old"); ("latest_version", JStr "1.0.0")]);
           ("ios", JObj [("url", JStr "https://ios"); ("latest_version", JStr "1.0.0")]);
           ("windows", JStr "none")])].

(** A new android url and no android version, under the tag 1.2.3. *)
Definition url_only : overrides :=
  {| tag_version := " 1.2.3 "; android_url := "https://x"; ios_url := "";
     windows_url := "https://w"; android_version := ""; ios_version := "";
     windows_version := "" |}.

(** The same with an explicit android version. *)
Definition url_and_version : overrides :=
  {| tag_version := " 1.2.3 "; android_url := "https://x"; ios_url := "";
     windows_url := "https://w"; android_version := "9.9.9"; ios_version := "";
     windows_version := "" |}.

Definition after_url_only : dict :=
  [("schema_version", JInt 1);
   ("version_info",
     JObj [("android", JObj [("url", JStr "https://x"); ("latest_version", JStr "1.2.3")]);
           ("ios", JObj [("url", JStr "https://ios"); ("latest_version", JStr "1.0.0")]);
           ("windows", JStr "none")])].

Definition after_url_and_version : dict :=
  [("schema_version", JInt 1);
   ("version_info",
     JObj [("android", JObj [("url", JStr "https://x"); ("latest_version", JStr "9.9.9")]);
           ("ios", JObj [("url", JStr "https://ios"); ("latest_version", JStr "1.0.0")]);
           ("windows", JStr "none")])].

End Release.

(** ** Notions the statements use *)

(** The file of [ann_id] holds the object [data], whose own id normalizes to
    [ann_id]. *)
Definition self_identified (fs : filesystem) (ann_id : string) (data : dict) : Prop :=
  fs (announcement_path ann_id) = Some (Json (JObj data))
  /\ _normalize_id (dict_get_default "id" JNull data) (announcement_path ann_id) = Ok ann_id.

(** The value each stage of a compilation that returns has produced, and
    what is returned from them. *)
Record stages : Type := {
  st_manifest : dict;
  st_ids : list string;
  st_latest : string;
  st_announcements : list (string * dict);
  st_donors : list json;
  st_active : dict;
  st_notes : list json
}.

Definition staged (fs : filesystem) (st : stages) : Prop :=
  fs manifest_path = Some (Json (JObj (st_manifest st)))
  /\ read_announcement_ids (st_manifest st) = Ok (st_ids st)
  /\ read_latest_announcement_id (st_manifest st) (st_ids st) = Ok (st_latest st)
  /\ _load_announcements fs (st_ids st) = Ok (st_announcements st)
  /\ load_donors fs (st_manifest st) = Ok (st_donors st)
  /\ subscript (st_latest st) (st_announcements st) = Ok (st_active st)
  /\ release_notes_from (st_announcements st) (st_ids st) [] = Ok (st_notes st).

Definition output (st : stages) : dict * summary :=
  (assemble (st_manifest st) (st_latest st) (st_active st) (st_donors st) (st_notes st),
   {| summary_announcement_ids := st_ids st;
      summary_latest_announcement_id := st_latest st;
      release_notes_count := length (st_notes st);
      donors_count := length (st_donors st) |}).

(** An assignment to a platform object that may not take place. *)
Definition assign_if (b : bool) (version_info : dict) (name key text : string) : dict :=
  if b then assign_platform version_info name key text else version_info.

(** A text that is empty or starts with a character that is no space. *)
Definition left_trimmed (s : string) : Prop :=
  match s with
  | EmptyString => True
  | String c _ => PyStr.isspace_char c = false
  end.

(** The paths [compile_update_config] may consult in the tree [fs]: the
    manifest, then the files of the declared ids, then the donors file. *)
Definition read_set (fs : filesystem) : list string :=
  manifest_path ::
  match fs manifest_path with
  | Some (Json (JObj manifest)) =>
      match read_announcement_ids manifest with
      | Ok ids =>
          map announcement_path ids
          ++ (if PyStr.nonempty (donors_file_of manifest) then [donors_file_of manifest] else [])
      | Raise _ => []
      end
  | _ => []
  end.

(** An exception of the model that can come after the manifest is read: a
    [ConfigError] other than the missing manifest, or the decoding error of a
    file of the tree that is not UTF-8; not a [KeyError]. *)
Definition expected_failure (fs : filesystem) (e : exception) : Prop :=
  match e with
  | ConfigError (ManifestNotFound _) => False
  | ConfigError _ => True
  | UnicodeDecodeError path => fs path = Some NotUtf8
  | KeyError _ => False
  end.

(** The note the file of [ann_id] gives, if it holds an object. *)
Definition file_note (fs : filesystem) (ann_id : string) : list json :=
  match fs (announcement_path ann_id) with
  | Some (Json (JObj data)) =>
      match _build_release_note data with
      | Some note => [note]
      | None => []
      end
  | _ => []
  end.

Module Stray.

(** The tree of the scenario with one more file, which is not JSON. *)
Definition fs : filesystem := fun path =>
  if String.eqb path "README.txt" then Some NotJson else Scenario.fs path.

End Stray.

Module Missing.

(** The manifest declares 1, 2 and 3; the file of 2 is missing and the file
    of 3 is misnamed. *)
Definition fs : filesystem :=
  tree [("manifest.json",
          Json (JObj [("announcement_ids", JList [JInt 1; JInt 2; JInt 3]);
                      ("latest_announcement_id", JInt 1)]));
        ("announcements/1.json", Json (JObj [("id", JInt 1)]));
        ("announcements/3.json", Json (JObj [("id", JInt 4)]))].

End Missing.

Module Empty.

(** A root with nothing in it. *)
Definition fs : filesystem := tree [].

End Empty.

(** ** The normal form of release notes *)

(** A text that [strip] leaves as it is. *)
Definition trimmed (s : string) : Prop := PyStr.strip s = s.

(** A string that is trimmed and not empty. *)
Definition normal_text (x : json) : Prop :=
  exists s, x = JStr s /\ s <> "" /\ trimmed s.

(** One language of a localized [contents]: a lower-case trimmed code that is
    not empty, with a list of texts that is not empty. *)
Definition normal_language (kv : string * json) : Prop :=
  fst kv <> ""
  /\ PyStr.lower (PyStr.strip (fst kv)) = fst kv
  /\ exists xs, snd kv = JList xs /\ xs <> [] /\ Forall normal_text xs.

Definition normal_contents (contents : json) : Prop :=
  match contents with
  | JList xs => Forall normal_text xs
  | JObj fields => NoDup (dict_keys fields) /\ Forall normal_language fields
  | _ => False
  end.

Definition normal_item (item : json) : Prop :=
  exists category contents,
    item = JObj [("category", JStr category); ("contents", contents)]
    /\ trimmed category
    /\ normal_contents contents
    /\ (category <> "" \/ py_bool contents = true).

Definition normal_note (note : json) : Prop :=
  exists version date_label items,
    note = JObj [("version", JStr version); ("date", JStr date_label);
                 ("items", JList items)]
    /\ trimmed version
    /\ trimmed date_label
    /\ Forall normal_item items
    /\ (version <> "" \/ items <> []).

(** ** The overrides as a sequence of assignments *)

(** One conditional assignment [target[key] = text] on the platform object
    [name]: the condition, then name, key and text. *)
Definition step : Type := (bool * (string * (string * string)))%type.

Definition run_step (version_info : dict) (s : step) : dict :=
  let '(b, (name, (key, text))) := s in assign_if b version_info name key text.

(** The nine assignments of [_apply_overrides], in source order. *)
Definition override_steps (o : overrides) : list step :=
  let tagged := PyStr.nonempty (PyStr.strip (tag_version o)) in
  let given (value : string) := PyStr.nonempty (PyStr.strip value) in
  [(given (android_url o), ("android", ("url", PyStr.strip (android_url o))));
   (given (ios_url o), ("ios", ("url", PyStr.strip (ios_url o))));
   (given (windows_url o), ("windows", ("url", PyStr.strip (windows_url o))));
   (given (android_version o),
     ("android", ("latest_version", PyStr.strip (android_version o))));
   (given (ios_version o), ("ios", ("latest_version", PyStr.strip (ios_version o))));
   (given (windows_version o),
     ("windows", ("latest_version", PyStr.strip (windows_version o))));
   (tagged && (given (android_url o) && negb (given (android_version o))),
     ("android", ("latest_version", PyStr.strip (tag_version o))));
   (tagged && (given (windows_url o) && negb (given (windows_version o))),
     ("windows", ("latest_version", PyStr.strip (tag_version o))));
   (tagged && (given (ios_url o) && negb (given (ios_version o))),
     ("ios", ("latest_version", PyStr.strip (tag_version o))))].

(** The value a field of a platform object has after the steps, from the
    value it had: the last step that assigns it decides.  [present] says
    whether the platform is an object. *)
Definition field_after (steps : list step) (present : bool) (name key : string)
    (before : option json) : option json :=
  fold_left
    (fun current (s : step) =>
       let '(b, (name', (key', text))) := s in
       if b && String.eqb name name' && String.eqb key key' && present
       then Some (JStr text)
       else current)
    steps before.

(** [merged["version_info"][name][key]] *)
Definition merged_platform_field (merged : dict) (name key : string) : option json :=
  match dict_get "version_info" merged with
  | Some (JObj version_info) => platform_field version_info name key
  | _ => None
  end.

Definition platform_names : list string := ["android"; "ios"; "windows"].

(** ** The command *)

(** What [parse_args] returns, the root apart: the tree under the resolved
    root is an argument of [main] here. *)
Record arguments : Type := {
  arg_output : string;
  arg_validate_only : bool;
  arg_overrides : overrides
}.

(** The defaults of [parse_args]. *)
Definition default_arguments : arguments :=
  {| arg_output := "dist/update/latest.json";
     arg_validate_only := false;
     arg_overrides :=
       {| tag_version := ""; android_url := ""; ios_url := ""; windows_url := "";
          android_version := ""; ios_version := ""; windows_version := "" |} |}.

(** What [main] does to the outside, in order.  The printed lines carry
    their values instead of the formatted text, and the text written is named
    by the document [json.dumps] serializes. *)
Inductive event : Type :=
| PrintError (e : config_error)
| PrintValidated (announcements : nat) (latest : string) (release_notes donors : nat)
| MakeParents (output : string)
| WriteText (output : string) (document : dict)
| PrintWriteFailed
| PrintBuilt (output : string).

(** How [main] ends: it returns an exit code, or an exception it does not
    catch escapes, from the compilation, from [mkdir] or from [write_text]. *)
Inductive ending : Type :=
| Returns (code : Z)
| Escapes (e : exception)
| EscapesFromMkdir
| EscapesFromWrite.

(** What [write_text] does: it writes, it raises [OSError], which [main]
    catches, or it raises something else, as [UnicodeEncodeError], which
    [main] does not catch. *)
Inductive write_result : Type :=
| Written
| WriteOSError
| WriteOtherError.

(** Whether [mkdir] on the parent of the output path succeeds, and what
    [write_text] on the output path does. *)
Record disk : Type := {
  can_make_parents : bool;
  write : write_result
}.

Definition main (fs : filesystem) (a : arguments) (d : disk) : list event * ending :=
  match compile_update_config fs with
  | Raise (ConfigError e) => ([PrintError e], Returns 1)
  | Raise e => ([], Escapes e)
  | Ok (merged, summary) =>
      let merged := _apply_overrides merged (arg_overrides a) in
      let validated :=
        PrintValidated (length (summary_announcement_ids summary))
                       (summary_latest_announcement_id summary)
                       (release_notes_count summary)
                       (donors_count summary) in
      if arg_validate_only a then ([validated], Returns 0)
      else if negb (can_make_parents d)
      then ([validated; MakeParents (arg_output a)], EscapesFromMkdir)
      else
        match write d with
        | WriteOSError =>
            ([validated; MakeParents (arg_output a); WriteText (arg_output a) merged;
              PrintWriteFailed],
             Returns 1)
        | WriteOtherError =>
            ([validated; MakeParents (arg_output a); WriteText (arg_output a) merged],
             EscapesFromWrite)
        | Written =>
            ([validated; MakeParents (arg_output a); WriteText (arg_output a) merged;
              PrintBuilt (arg_output a)],
             Returns 0)
        end
  end.

(** The event touches the output path. *)
Definition touches_output (ev : event) : bool :=
  match ev with
  | MakeParents _ | WriteText _ _ => true
  | _ => false
  end.

Module Run.

Definition writable : disk := {| can_make_parents := true; write := Written |}.

(** The scenario, released under the tag 1.2.3 with a new android url. *)
Definition release : arguments :=
  {| arg_output := "dist/update/latest.json";
     arg_validate_only := false;
     arg_overrides := Release.url_only |}.

Definition validate : arguments :=
  {| arg_output := "dist/update/latest.json";
     arg_validate_only := true;
     arg_overrides := Release.url_only |}.

End Run.

Module InvalidId.

(** The second id is no id, and the first is repeated after it. *)
Definition manifest : dict :=
  [("announcement_ids", JList [JInt 1; JStr "x"; JInt 1]);
   ("latest_announcement_id", JInt 1)].

Definition fs : filesystem :=
  tree [("manifest.json", Json (JObj manifest));
        ("announcements/1.json", Json (JObj [("id", JInt 1)]))].

End InvalidId.

(** ** The rule for release notes, stated on the fields of the input *)

(** [str(x).strip()] is not empty. *)
Definition has_text (x : json) : Prop := PyStr.strip (py_str x) <> "".

(** One language of a localized [contents] gives a text: its code is not
    blank, and its value is a string that is not blank or a list with an
    entry whose text is not blank. *)
Definition language_has_text (kv : string * json) : Prop :=
  PyStr.strip (fst kv) <> ""
  /\ match snd kv with
     | JStr s => PyStr.strip s <> ""
     | JList xs => exists x, In x xs /\ has_text x
     | _ => False
     end.

(** The [contents] field of an item gives a text: a string that is not
    blank, a list with an entry whose text is not blank, or an object with a
    language that gives a text. *)
Definition has_contents (contents : json) : Prop :=
  match contents with
  | JStr s => PyStr.strip s <> ""
  | JList xs => exists x, In x xs /\ has_text x
  | JObj fields => exists kv, In kv fields /\ language_has_text kv
  | _ => False
  end.

(** The item is an object with a category that is not blank or contents that
    give a text. *)
Definition item_remains (item : json) : Prop :=
  match item with
  | JObj fields =>
      has_text (dict_get_default "category" (JStr "") fields)
      \/ has_contents (dict_get_default "contents" JNull fields)
  | _ => False
  end.

(** The entries of the [items] field of an announcement, none when the field
    is missing or is not a list. *)
Definition declared_items (entry : dict) : list json :=
  match dict_get "items" entry with
  | Some (JList xs) => xs
  | _ => []
  end.

(** * Properties *)

(** ** The model on concrete inputs *)

Example py_str_list :
  py_str (JList [JInt 1; JStr "a"; JNull; JBool true; JFloat "1.5"; JObj [("k", JList [])]])
  = "[1, 'a', None, True, 1.5, {'k': []}]".
Proof. reflexivity. Qed.

Example py_str_escapes :
  py_repr (JStr (String (ascii_of_N 0) (String (ascii_of_N 160) (String (ascii_of_N 255) "a'b"))))
  = String PyStr.dquote ("\x00\xa0" ++ String (ascii_of_N 255) "a'b" ++ String PyStr.dquote "").
Proof. reflexivity. Qed.

Example strip_example : PyStr.strip (String (ascii_of_N 9) " 1.2.3  ") = "1.2.3".
Proof. reflexivity. Qed.

Example scenario_compiles :
  compile_update_config Scenario.fs
  = Ok (Scenario.expected,
        {| summary_announcement_ids := ["1"; "2"];
           summary_latest_announcement_id := "2";
           release_notes_count := 1;
           donors_count := 0 |}).
Proof. reflexivity. Qed.

(** ** Dicts *)

Section DictFacts.
Context {V : Type}.
Implicit Types (d : list (string * V)) (k : string) (v : V).

Lemma dict_get_set_eq k v d : dict_get k (dict_set k v d) = Some v.
Proof.
  induction d as [|[k' v'] d IH]; simpl.
  - now rewrite String.eqb_refl.
  - destruct (String.eqb k k') eqn:E; simpl; rewrite E; auto.
Qed.

Lemma dict_get_set_neq k k' v d :
  k <> k' -> dict_get k (dict_set k' v d) = dict_get k d.
Proof.
  intros Hne. induction d as [|[k0 v0] d IH]; simpl.
  - destruct (String.eqb k k') eqn:E; [apply String.eqb_eq in E; contradiction | reflexivity].
  - destruct (String.eqb k' k0) eqn:E1; simpl.
    + apply String.eqb_eq in E1; subst k0.
      destruct (String.eqb k k') eqn:E2; [apply String.eqb_eq in E2; contradiction | reflexivity].
    + destruct (String.eqb k k0); auto.
Qed.

Lemma dict_get_pop_eq k d : dict_get k (dict_pop k d) = None.
Proof.
  induction d as [|[k' v'] d IH]; simpl; auto.
  destruct (String.eqb k k') eqn:E; simpl; [|rewrite E]; auto.
Qed.

Lemma dict_get_pop_neq k k' d :
  k <> k' -> dict_get k (dict_pop k' d) = dict_get k d.
Proof.
  intros Hne. induction d as [|[k0 v0] d IH]; simpl; auto.
  destruct (String.eqb k' k0) eqn:E1; simpl.
  - apply String.eqb_eq in E1; subst k0.
    destruct (String.eqb k k') eqn:E2; [apply String.eqb_eq in E2; contradiction | exact IH].
  - destruct (String.eqb k k0); auto.
Qed.

Lemma dict_get_in_keys k d : dict_get k d <> None <-> In k (dict_keys d).
Proof.
  induction d as [|[k' v'] d IH]; simpl.
  - split; [congruence | tauto].
  - destruct (String.eqb k k') eqn:E.
    + apply String.eqb_eq in E; subst. split; [auto | congruence].
    + apply String.eqb_neq in E. rewrite IH. split; [auto | intros [->|]; tauto].
Qed.

Lemma dict_keys_set k0 k v d :
  In k0 (dict_keys (dict_set k v d)) <-> k0 = k \/ In k0 (dict_keys d).
Proof.
  induction d as [|[k' v'] d IH]; simpl.
  - intuition.
  - destruct (String.eqb k k') eqn:E; simpl.
    + apply String.eqb_eq in E; subst. intuition.
    + rewrite IH. intuition.
Qed.

Lemma dict_keys_pop k0 k d :
  In k0 (dict_keys (dict_pop k d)) <-> k0 <> k /\ In k0 (dict_keys d).
Proof.
  induction d as [|[k' v'] d IH]; simpl.
  - intuition.
  - destruct (String.eqb k k') eqn:E; simpl.
    + apply String.eqb_eq in E; subst. rewrite IH. intuition congruence.
    + apply String.eqb_neq in E. rewrite IH. intuition congruence.
Qed.

Lemma dict_set_NoDup k v d : NoDup (dict_keys d) -> NoDup (dict_keys (dict_set k v d)).
Proof.
  induction d as [|[k' v'] d IH]; simpl; intros H.
  - constructor; [tauto | constructor].
  - inversion H; subst. destruct (String.eqb k k') eqn:E; simpl.
    + now constructor.
    + apply String.eqb_neq in E. constructor; auto.
      change (~ In k' (dict_keys (dict_set k v d))).
      rewrite dict_keys_set. intuition congruence.
Qed.

Lemma dict_pop_NoDup k d : NoDup (dict_keys d) -> NoDup (dict_keys (dict_pop k d)).
Proof.
  induction d as [|[k' v'] d IH]; simpl; intros H; auto.
  inversion H; subst. destruct (String.eqb k k') eqn:E; simpl; auto.
  constructor; auto.
  change (~ In k' (dict_keys (dict_pop k d))).
  rewrite dict_keys_pop. tauto.
Qed.

End DictFacts.

(** ** Reading files *)

Lemma read_json_ok fs path fields :
  _read_json fs path = Ok fields <-> fs path = Some (Json (JObj fields)).
Proof.
  unfold _read_json, read_and_parse.
  destruct (fs path) as [[| | |[]]|]; simpl; split; intros H;
    try discriminate; inversion H; reflexivity.
Qed.

Lemma read_json_list_ok fs path items :
  _read_json_list fs path = Ok items <-> fs path = Some (Json (JList items)).
Proof.
  unfold _read_json_list, read_and_parse.
  destruct (fs path) as [[| | |[]]|]; simpl; split; intros H;
    try discriminate; inversion H; reflexivity.
Qed.

Lemma path_exists_of_file fs path f : fs path = Some f -> path_exists fs path = true.
Proof. unfold path_exists. now intros ->. Qed.

(** ** Loading announcements *)

Lemma load_announcements_from_ok fs ids :
  forall acc anns,
    load_announcements_from fs ids acc = Ok anns ->
    (forall id data, dict_get id acc = Some data -> self_identified fs id data) ->
    (forall id data, dict_get id anns = Some data -> self_identified fs id data)
    /\ (forall id, In id ids \/ dict_get id acc <> None -> dict_get id anns <> None).
Proof.
  induction ids as [|ann_id rest IH]; simpl; intros acc anns Hload Hacc.
  - inversion Hload; subst. split; [exact Hacc | intros id [[]|H]; exact H].
  - destruct (path_exists fs (announcement_path ann_id)); simpl in Hload; [|discriminate].
    destruct (_read_json fs (announcement_path ann_id)) as [data|] eqn:Hread;
      simpl in Hload; [|discriminate].
    destruct (_normalize_id (dict_get_default "id" JNull data) (announcement_path ann_id))
      as [file_id|] eqn:Hid; simpl in Hload; [|discriminate].
    destruct (String.eqb file_id ann_id) eqn:Heq; simpl in Hload; [|discriminate].
    apply String.eqb_eq in Heq; subst file_id.
    apply read_json_ok in Hread.
    destruct (IH _ _ Hload) as [Hall Hdom].
    + intros id d Hget. destruct (string_dec id ann_id) as [->|Hne].
      * rewrite dict_get_set_eq in Hget. inversion Hget; subst. now split.
      * rewrite dict_get_set_neq in Hget by assumption. now apply Hacc.
    + split; [exact Hall|].
      intros id Hin. apply Hdom.
      destruct (string_dec id ann_id) as [->|Hne].
      * right. rewrite dict_get_set_eq. discriminate.
      * rewrite dict_get_set_neq by assumption.
        destruct Hin as [[Heq|Hin]|Hin]; [congruence | now left | now right].
Qed.

Lemma load_announcements_ok fs ids anns :
  _load_announcements fs ids = Ok anns ->
  (forall id data, dict_get id anns = Some data -> self_identified fs id data)
  /\ (forall id, In id ids -> dict_get id anns <> None).
Proof.
  intros Hload. apply load_announcements_from_ok in Hload.
  - destruct Hload as [Hall Hdom]. split; [exact Hall | intros id Hin; apply Hdom; now left].
  - simpl. discriminate.
Qed.

(** ** Release notes *)

Lemma release_notes_from_spec announcements ids :
  forall acc,
    (forall id, In id ids -> dict_get id announcements <> None) ->
    release_notes_from announcements ids acc
    = Ok (acc ++ flat_map (note_of announcements) ids)%list.
Proof.
  induction ids as [|ann_id rest IH]; simpl; intros acc Hdom.
  - now rewrite app_nil_r.
  - unfold subscript, note_of.
    destruct (dict_get ann_id announcements) as [entry|] eqn:Hget; simpl.
    + destruct (_build_release_note entry) as [note|]; rewrite IH by auto; simpl.
      * now rewrite <- app_assoc.
      * reflexivity.
    + exfalso. apply (Hdom ann_id); auto.
Qed.

Lemma normalize_items_from_spec items :
  forall acc, normalize_items_from items acc = (acc ++ flat_map normalize_item items)%list.
Proof.
  induction items as [|item rest IH]; simpl; intros acc.
  - now rewrite app_nil_r.
  - rewrite IH. now rewrite <- app_assoc.
Qed.

(** ** The stages of a successful compilation *)

Lemma compile_ok_inv fs out :
  compile_update_config fs = Ok out -> exists st, staged fs st /\ out = output st.
Proof.
  unfold compile_update_config. intros H.
  destruct (path_exists fs manifest_path); simpl in H; [|discriminate].
  destruct (_read_json fs manifest_path) as [manifest|] eqn:H1; simpl in H; [|discriminate].
  destruct (read_announcement_ids manifest) as [ids|] eqn:H2; simpl in H; [|discriminate].
  destruct (read_latest_announcement_id manifest ids) as [latest|] eqn:H3;
    simpl in H; [|discriminate].
  destruct (_load_announcements fs ids) as [anns|] eqn:H4; simpl in H; [|discriminate].
  destruct (load_donors fs manifest) as [donors|] eqn:H5; simpl in H; [|discriminate].
  destruct (subscript latest anns) as [active|] eqn:H6; simpl in H; [|discriminate].
  destruct (release_notes_from anns ids []) as [notes|] eqn:H7; simpl in H; [|discriminate].
  apply read_json_ok in H1.
  exists {| st_manifest := manifest; st_ids := ids; st_latest := latest;
            st_announcements := anns; st_donors := donors; st_active := active;
            st_notes := notes |}.
  unfold staged, output; simpl. inversion H. repeat split; assumption.
Qed.

Lemma compile_ok_intro fs st :
  staged fs st -> compile_update_config fs = Ok (output st).
Proof.
  intros (H1 & H2 & H3 & H4 & H5 & H6 & H7).
  unfold compile_update_config.
  rewrite (path_exists_of_file _ _ _ H1). simpl.
  apply read_json_ok in H1. rewrite H1; simpl.
  rewrite H2; simpl. rewrite H3; simpl. rewrite H4; simpl.
  rewrite H5; simpl. rewrite H6; simpl. rewrite H7; simpl.
  reflexivity.
Qed.

(** ** The notes of the declared ids *)

Lemma dict_mem_true {V : Type} (k : string) (d : list (string * V)) :
  dict_mem k d = true <-> dict_get k d <> None.
Proof. unfold dict_mem. destruct (dict_get k d); split; congruence. Qed.

Lemma nonempty_false s : PyStr.nonempty s = false <-> s = "".
Proof. destruct s; simpl; split; congruence. Qed.

Lemma nonempty_true s : PyStr.nonempty s = true <-> s <> "".
Proof. destruct s; simpl; split; congruence. Qed.

Lemma is_nil_true {A : Type} (l : list A) : is_nil l = true <-> l = [].
Proof. destruct l; simpl; split; congruence. Qed.

(** The normalized contents of an item are a list or a dict, and are falsy
    exactly when empty. *)
Lemma normalize_contents_falsy contents :
  py_bool (normalize_contents contents) = false
  <-> normalize_contents contents = JList [] \/ normalize_contents contents = JObj [].
Proof.
  split; [|intros [H|H]; rewrite H; reflexivity].
  destruct contents as [| | | |s|xs|fields]; simpl; auto.
  - destruct (PyStr.nonempty (PyStr.strip s)); simpl; [discriminate | auto].
  - destruct (stripped_nonempty xs); simpl; [auto | discriminate].
  - destruct (localize fields []); simpl; [auto | discriminate].
Qed.

Lemma lower_empty s : PyStr.lower s = "" <-> s = "".
Proof.
  unfold PyStr.lower. destruct s; simpl; split; intros H; try reflexivity; discriminate.
Qed.

Lemma stripped_nonempty_has_text xs :
  stripped_nonempty xs <> [] <-> exists x, In x xs /\ has_text x.
Proof.
  unfold stripped_nonempty, has_text. induction xs as [|x xs IH]; simpl.
  - split; [congruence | intros (x & [] & _)].
  - destruct (PyStr.nonempty (PyStr.strip (py_str x))) eqn:E.
    + split; [|discriminate]. intros _. exists x. split; [now left|].
      now apply nonempty_true.
    + rewrite IH. apply nonempty_false in E. split.
      * intros (y & Hin & Hy). exists y. split; [now right | exact Hy].
      * intros (y & [<-|Hin] & Hy); [congruence|]. exists y. now split.
Qed.

Lemma localized_values_has_text key value :
  PyStr.nonempty (PyStr.lower (PyStr.strip key)) = true /\ localized_values value <> []
  <-> language_has_text (key, value).
Proof.
  unfold language_has_text. simpl.
  assert (Hk : PyStr.nonempty (PyStr.lower (PyStr.strip key)) = true
               <-> PyStr.strip key <> "").
  { rewrite nonempty_true, lower_empty. tauto. }
  rewrite Hk.
  destruct value as [| | | |s|xs|fields]; simpl; try tauto.
  - destruct (PyStr.nonempty (PyStr.strip s)) eqn:E.
    + apply nonempty_true in E. split; [tauto|]. intros [H _]. split; [exact H | discriminate].
    + apply nonempty_false in E. split; [tauto | intros [_ H]; congruence].
  - now rewrite stripped_nonempty_has_text.
Qed.

Lemma dict_set_not_nil {V : Type} (k : string) (v : V) (d : list (string * V)) :
  dict_set k v d <> [].
Proof. destruct d as [|[k' v'] d]; simpl; [|destruct (String.eqb k k')]; discriminate. Qed.

Lemma localize_has_text contents :
  forall localized,
    localize contents localized <> []
    <-> localized <> [] \/ exists kv, In kv contents /\ language_has_text kv.
Proof.
  induction contents as [|[key value] rest IH]; simpl; intros localized.
  - split; [now left | intros [H|(kv & [] & _)]; exact H].
  - pose proof (localized_values_has_text key value) as Hkv.
    destruct (PyStr.nonempty (PyStr.lower (PyStr.strip key))) eqn:Hlang; simpl.
    + destruct (localized_values value) as [|v vs] eqn:Hv; simpl.
      * rewrite IH. split.
        -- intros [H|(kv & Hin & H)]; [now left | right; exists kv; auto].
        -- intros [H|(kv & [<-|Hin] & H)]; [now left | | right; exists kv; auto].
           apply Hkv in H. destruct H as [_ H]. congruence.
      * rewrite IH. split.
        -- intros _. right. exists (key, value). split; [now left|].
           apply Hkv. split; [reflexivity | discriminate].
        -- intros _. left. apply dict_set_not_nil.
    + rewrite IH. split.
      * intros [H|(kv & Hin & H)]; [now left | right; exists kv; auto].
      * intros [H|(kv & [<-|Hin] & H)]; [now left | | right; exists kv; auto].
        apply Hkv in H. destruct H as [H _]. discriminate.
Qed.

(** The normalized contents of an item are truthy exactly when its
    [contents] field gives a text. *)
Lemma normalize_contents_has_contents contents :
  py_bool (normalize_contents contents) = true <-> has_contents contents.
Proof.
  destruct contents as [| | | |s|xs|fields]; simpl; try (split; [discriminate | tauto]).
  - destruct (PyStr.nonempty (PyStr.strip s)) eqn:E; simpl.
    + apply nonempty_true in E. tauto.
    + apply nonempty_false in E. split; [discriminate | congruence].
  - rewrite <- stripped_nonempty_has_text.
    destruct (stripped_nonempty xs); simpl; split; congruence.
  - pose proof (localize_has_text fields []) as H.
    destruct (localize fields []) as [|p d]; simpl.
    + split; [discriminate|]. intros Hex. exfalso.
      apply (proj2 H); [right; exact Hex | reflexivity].
    + split; [|reflexivity]. intros _.
      assert (Hne : p :: d <> []) by discriminate.
      destruct (proj1 H Hne) as [H1|H1]; [congruence | exact H1].
Qed.

Lemma normalize_item_remains item : normalize_item item <> [] <-> item_remains item.
Proof.
  destruct item as [| | | | | |fields]; simpl; try (split; [congruence | tauto]).
  fold (item_category fields). fold (item_contents fields).
  unfold has_text. fold (item_category fields).
  rewrite <- (normalize_contents_has_contents (dict_get_default "contents" JNull fields)).
  fold (item_contents fields).
  destruct (PyStr.nonempty (item_category fields)) eqn:Hc; simpl.
  - apply nonempty_true in Hc. split; [now left | discriminate].
  - apply nonempty_false in Hc.
    destruct (py_bool (item_contents fields)); simpl.
    + split; [now right | discriminate].
    + split; [congruence | intros [H|H]; [contradiction | discriminate]].
Qed.

Lemma entry_items_declared entry : entry_items entry = declared_items entry.
Proof.
  unfold entry_items, declared_items, dict_get_default.
  now destruct (dict_get "items" entry).
Qed.

Lemma flat_map_not_nil {A B : Type} (f : A -> list B) (l : list A) :
  flat_map f l <> [] <-> exists a, In a l /\ f a <> [].
Proof.
  induction l as [|a l IH]; simpl.
  - split; [congruence | intros (a & [] & _)].
  - split.
    + intros H. destruct (f a) as [|b bs] eqn:E.
      * simpl in H. apply IH in H. destruct H as (x & Hin & Hx). exists x. auto.
      * exists a. split; [now left | rewrite E; discriminate].
    + intros (x & [<-|Hin] & Hx).
      * destruct (f a); [congruence | discriminate].
      * intros H. apply app_eq_nil in H. destruct H as [_ H].
        revert H. apply IH. exists x. auto.
Qed.

(** C1. The loop of [compile_update_config] over the declared ids, on a
    mapping that holds them all, returns the notes of the ids in declared
    order, each id giving at most one note.  [_build_release_note] gives a
    note exactly when the trimmed text of the entry's [version] field is not
    empty or an entry of its [items] list remains, and the note then holds
    that trimmed version, the trimmed [date] and what the entries of [items]
    give, one after the other.  An entry of [items] remains exactly when it
    is an object whose trimmed [category] is not empty or whose [contents]
    give a text; otherwise it gives nothing.  An entry that remains gives one
    item with its trimmed category and contents that are empty exactly when
    its [contents] field gives no text. *)
Theorem release_notes_in_declared_order :
  forall (announcements : list (string * dict)) (ids : list string),
    forallb (fun ann_id => dict_mem ann_id announcements) ids = true ->
    release_notes_from announcements ids [] = Ok (flat_map (note_of announcements) ids)
    /\ (forall entry,
          (_build_release_note entry <> None
           <-> has_text (dict_get_default "version" (JStr "") entry)
               \/ exists item, In item (declared_items entry) /\ item_remains item)
          /\ (forall note, _build_release_note entry = Some note ->
                note
                = JObj [("version",
                          JStr (PyStr.strip
                                  (py_str (dict_get_default "version" (JStr "") entry))));
                        ("date",
                          JStr (PyStr.strip
                                  (py_str (dict_get_default "date" (JStr "") entry))));
                        ("items",
                          JList (flat_map normalize_item (declared_items entry)))]))
    /\ (forall item,
          (normalize_item item <> [] <-> item_remains item)
          /\ (normalize_item item = [] <-> ~ item_remains item))
    /\ (forall fields,
          item_remains (JObj fields) ->
          exists contents,
            normalize_item (JObj fields)
            = [JObj [("category",
                       JStr (PyStr.strip
                               (py_str (dict_get_default "category" (JStr "") fields))));
                     ("contents", contents)]]
            /\ (py_bool contents = true
                <-> has_contents (dict_get_default "contents" JNull fields))).
Proof.
  intros announcements ids Hdom.
  assert (Hitems : forall entry,
             release_items entry = flat_map normalize_item (declared_items entry)).
  { intros entry. unfold release_items.
    now rewrite normalize_items_from_spec, entry_items_declared. }
  split; [|split; [|split]].
  - apply (release_notes_from_spec announcements ids []).
    intros id Hin. apply dict_mem_true.
    rewrite forallb_forall in Hdom. now apply Hdom.
  - intros entry. unfold _build_release_note. rewrite Hitems.
    unfold release_version, release_date, has_text. split; [split|].
    + intros H.
      destruct (PyStr.nonempty
                  (PyStr.strip (py_str (dict_get_default "version" (JStr "") entry))))
        eqn:Hv.
      * left. now apply nonempty_true.
      * right. simpl in H.
        destruct (flat_map normalize_item (declared_items entry)) as [|x xs] eqn:E;
          [simpl in H; congruence|].
        assert (Hne : flat_map normalize_item (declared_items entry) <> [])
          by (rewrite E; discriminate).
        apply flat_map_not_nil in Hne. destruct Hne as (item & Hin & Hitem).
        exists item. split; [exact Hin | now apply normalize_item_remains].
    + intros [H|(item & Hin & Hitem)].
      * apply nonempty_true in H. rewrite H. simpl. discriminate.
      * assert (Hne : flat_map normalize_item (declared_items entry) <> []).
        { apply flat_map_not_nil. exists item.
          split; [exact Hin | now apply normalize_item_remains]. }
        destruct (flat_map normalize_item (declared_items entry)); [congruence|].
        simpl. rewrite andb_false_r. discriminate.
    + intros note H.
      destruct (negb (PyStr.nonempty
                        (PyStr.strip (py_str (dict_get_default "version" (JStr "") entry))))
                && is_nil (flat_map normalize_item (declared_items entry)));
        congruence.
  - intros item. split; [apply normalize_item_remains|].
    split.
    + intros H Hr. apply normalize_item_remains in Hr. contradiction.
    + intros H. destruct (normalize_item item) as [|x xs] eqn:E; [reflexivity|].
      exfalso. apply H. apply normalize_item_remains. rewrite E. discriminate.
  - intros fields Hr. apply normalize_item_remains in Hr.
    exists (item_contents fields). split.
    + unfold normalize_item in *. fold (item_category fields).
      destruct (negb (PyStr.nonempty (item_category fields))
                && negb (py_bool (item_contents fields))); [congruence | reflexivity].
    + apply normalize_contents_has_contents.
Qed.

Lemma release_notes_in_declared_order_witness :
  forallb (fun ann_id => dict_mem ann_id Samples.announcements) Samples.ids = true
  /\ release_notes_from Samples.announcements Samples.ids [] = Ok Samples.notes.
Proof.
  split.
  - reflexivity.
  - exact (eq_trans
             (proj1 (release_notes_in_declared_order Samples.announcements Samples.ids
                       eq_refl))
             eq_refl).
Defined.

Example sample_release_notes :
  release_notes_from Samples.announcements Samples.ids [] = Ok Samples.notes.
Proof. reflexivity. Qed.

(** ** Identifiers *)

Lemma uint_digits_only d : PyStr.all_chars PyStr.isdigit_char (NilEmpty.string_of_uint d) = true.
Proof. induction d; simpl; auto. Qed.

Lemma of_int_nonnegative_isdigit z : (0 <= z)%Z -> PyStr.isdigit (PyStr.of_int z) = true.
Proof.
  intros Hz. unfold PyStr.of_int, PyStr.isdigit.
  destruct z as [|p|p]; [reflexivity | | lia].
  simpl. unfold NilZero.string_of_uint.
  pose proof (uint_digits_only (Pos.to_uint p)) as Hd.
  destruct (Pos.to_uint p); simpl in *; auto.
Qed.

Lemma of_int_negative_not_isdigit z : (z < 0)%Z -> PyStr.isdigit (PyStr.of_int z) = false.
Proof.
  intros Hz. destruct z as [|p|p]; [lia | lia | reflexivity].
Qed.

(** What [_normalize_id] accepts, and when its result is digit-only: always
    for a string, for an integer exactly when it is not negative, never for a
    boolean. *)
Lemma normalize_id_result value where_ text :
  _normalize_id value where_ = Ok text ->
  match value with
  | JStr s => text = PyStr.strip s /\ PyStr.isdigit text = true
  | JInt n => text = PyStr.of_int n /\ (PyStr.isdigit text = true <-> (0 <= n)%Z)
  | JBool b => text = (if b then "True" else "False") /\ PyStr.isdigit text = false
  | _ => False
  end.
Proof.
  destruct value as [|b|n|r|s|xs|fields]; simpl; intros H; try discriminate.
  - inversion H; subst. destruct b; auto.
  - inversion H; subst. split; [reflexivity|].
    destruct (Z_le_gt_dec 0 n) as [Hn|Hn].
    + rewrite of_int_nonnegative_isdigit by assumption. tauto.
    + rewrite of_int_negative_not_isdigit by lia. split; [discriminate | lia].
  - destruct (PyStr.isdigit (PyStr.strip s)) eqn:Hd; inversion H; subst. auto.
Qed.

Lemma normalize_id_rejects value where_ :
  match value with
  | JNull | JFloat _ | JList _ | JObj _ =>
      _normalize_id value where_ = Raise (ConfigError (InvalidAnnouncementId where_ value))
  | JStr s =>
      PyStr.isdigit (PyStr.strip s) = false ->
      _normalize_id value where_ = Raise (ConfigError (InvalidAnnouncementId where_ value))
  | _ => True
  end.
Proof.
  destruct value; simpl; auto. now intros ->.
Qed.

(** C2. [_normalize_id] returns "-5" for the integer -5 and "True" for the
    boolean true, neither of which is a digit-only string, although it
    rejects the strings "-5" and "True". *)
Theorem normalize_id_not_digit_only :
  _normalize_id (JInt (-5)) "manifest.announcement_ids" = Ok "-5"
  /\ PyStr.isdigit "-5" = false
  /\ _normalize_id (JStr "-5") "manifest.announcement_ids"
     = Raise (ConfigError (InvalidAnnouncementId "manifest.announcement_ids" (JStr "-5")))
  /\ _normalize_id (JBool true) "manifest.announcement_ids" = Ok "True"
  /\ PyStr.isdigit "True" = false
  /\ _normalize_id (JStr "True") "manifest.announcement_ids"
     = Raise (ConfigError (InvalidAnnouncementId "manifest.announcement_ids" (JStr "True"))).
Proof. repeat split. Qed.

(** ** Announcement files *)

(** C6. When [_load_announcements] returns, every id of the list is a key of
    the result, bound to the object of its file, and the id field of that
    object normalizes to the id of the list.  When the file of some id of the
    list holds an object whose id field does not normalize to that id,
    [_load_announcements] raises. *)
Theorem load_announcements_checks_own_id :
  forall (fs : filesystem) (ids : list string),
    (forall anns,
        _load_announcements fs ids = Ok anns ->
        forall ann_id, In ann_id ids ->
          exists data, dict_get ann_id anns = Some data /\ self_identified fs ann_id data)
    /\ (forall ann_id data,
          In ann_id ids ->
          fs (announcement_path ann_id) = Some (Json (JObj data)) ->
          _normalize_id (dict_get_default "id" JNull data) (announcement_path ann_id)
            <> Ok ann_id ->
          exists e, _load_announcements fs ids = Raise e).
Proof.
  intros fs ids.
  assert (Hok : forall anns,
             _load_announcements fs ids = Ok anns ->
             forall ann_id, In ann_id ids ->
               exists data, dict_get ann_id anns = Some data /\ self_identified fs ann_id data).
  { intros anns Hload ann_id Hin.
    destruct (load_announcements_ok _ _ _ Hload) as [Hall Hdom].
    specialize (Hdom ann_id Hin).
    destruct (dict_get ann_id anns) as [data|] eqn:Hget; [|congruence].
    exists data. split; [reflexivity | now apply Hall]. }
  split; [exact Hok|].
  intros ann_id data Hin Hfile Hid.
  destruct (_load_announcements fs ids) as [anns|e] eqn:Hload; [|now exists e].
  exfalso. destruct (Hok anns eq_refl ann_id Hin) as (data' & _ & Hfile' & Hid').
  rewrite Hfile in Hfile'. inversion Hfile'; subst data'. contradiction.
Qed.

Lemma load_announcements_checks_own_id_witness :
  In "1" ["1"]
  /\ Inputs.misnamed (announcement_path "1")
     = Some (Json (JObj [("id", JInt 2); ("title", JStr "two")]))
  /\ _normalize_id (JInt 2) (announcement_path "1") <> Ok "1"
  /\ exists e, _load_announcements Inputs.misnamed ["1"] = Raise e.
Proof.
  assert (H1 : In "1" ["1"]) by (simpl; auto).
  assert (H2 : _normalize_id (JInt 2) (announcement_path "1") <> Ok "1") by (simpl; discriminate).
  split; [exact H1 | split; [reflexivity | split; [exact H2|]]].
  exact (proj2 (load_announcements_checks_own_id Inputs.misnamed ["1"])
               "1" [("id", JInt 2); ("title", JStr "two")] H1 eq_refl H2).
Defined.

Example misnamed_announcement_error :
  compile_update_config Inputs.misnamed
  = Raise (ConfigError (AnnouncementIdMismatch "announcements/1.json" "1" "2")).
Proof. reflexivity. Qed.

(** ** Validation of the manifest *)

Lemma nodup_length_le (l : list string) : length (nodup string_dec l) <= length l.
Proof.
  induction l as [|a l IH]; simpl; auto.
  destruct (in_dec string_dec a l); simpl; lia.
Qed.

Lemma distinct_count_NoDup ids : distinct_count ids = length ids <-> NoDup ids.
Proof.
  unfold distinct_count. split.
  - induction ids as [|a l IH]; simpl; intros H; [constructor|].
    destruct (in_dec string_dec a l) as [Hin|Hin]; simpl in H.
    + pose proof (nodup_length_le l). lia.
    + constructor; auto.
  - intros H. now rewrite nodup_fixed_point.
Qed.

Lemma repeated_entry_not_NoDup (ids : list string) i j x :
  i <> j -> nth_error ids i = Some x -> nth_error ids j = Some x -> ~ NoDup ids.
Proof.
  intros Hij Hi Hj Hnd. apply Hij.
  apply (proj1 (NoDup_nth_error ids) Hnd).
  - apply nth_error_Some. congruence.
  - congruence.
Qed.

Lemma list_mem_In x ids : list_mem x ids = true <-> In x ids.
Proof.
  unfold list_mem. rewrite existsb_exists. split.
  - intros (y & Hin & Heq). apply String.eqb_eq in Heq. now subst.
  - intros Hin. exists x. split; [assumption | apply String.eqb_refl].
Qed.

Lemma compile_reads_manifest fs manifest :
  fs manifest_path = Some (Json (JObj manifest)) ->
  compile_update_config fs
  = (announcement_ids <- read_announcement_ids manifest ;;
     latest_announcement_id <- read_latest_announcement_id manifest announcement_ids ;;
     announcements <- _load_announcements fs announcement_ids ;;
     donors <- load_donors fs manifest ;;
     active <- subscript latest_announcement_id announcements ;;
     release_notes <- release_notes_from announcements announcement_ids [] ;;
     Ok (output {| st_manifest := manifest; st_ids := announcement_ids;
                   st_latest := latest_announcement_id; st_announcements := announcements;
                   st_donors := donors; st_active := active; st_notes := release_notes |})).
Proof.
  intros H. unfold compile_update_config.
  rewrite (path_exists_of_file _ _ _ H). apply read_json_ok in H. now rewrite H.
Qed.

(** C7. When the manifest is read and two entries of [announcement_ids]
    normalize to the same string, [compile_update_config] raises the
    duplicates error; when [announcement_ids] is missing, not a list or the
    empty list, it raises the non-empty-array error. *)
Theorem duplicate_announcement_ids_rejected :
  forall (fs : filesystem) (manifest : dict),
    fs manifest_path = Some (Json (JObj manifest)) ->
    (forall raw ids i j x,
        dict_get "announcement_ids" manifest = Some (JList raw) ->
        normalize_ids raw "manifest.announcement_ids" = Ok ids ->
        i <> j -> nth_error ids i = Some x -> nth_error ids j = Some x ->
        compile_update_config fs = Raise (ConfigError AnnouncementIdsDuplicates))
    /\ ((forall raw, dict_get "announcement_ids" manifest <> Some (JList raw))
        \/ dict_get "announcement_ids" manifest = Some (JList []) ->
        compile_update_config fs = Raise (ConfigError AnnouncementIdsNotNonEmptyArray)).
Proof.
  intros fs manifest Hm. rewrite (compile_reads_manifest _ _ Hm).
  unfold read_announcement_ids, dict_get_default. split.
  - intros raw ids i j x Hraw Hnorm Hij Hi Hj. rewrite Hraw.
    destruct raw as [|first others].
    + simpl in Hnorm. inversion Hnorm; subst. destruct i; discriminate.
    + rewrite Hnorm. simpl.
      destruct (Nat.eqb_spec (distinct_count ids) (length ids)) as [Heq|Hne]; [|reflexivity].
      exfalso. apply distinct_count_NoDup in Heq.
      exact (repeated_entry_not_NoDup ids i j x Hij Hi Hj Heq).
  - intros [Hnot | Hempty].
    + destruct (dict_get "announcement_ids" manifest) as [[| | | | |[|first others]|]|] eqn:E;
        try reflexivity.
      exfalso. exact (Hnot _ eq_refl).
    + now rewrite Hempty.
Qed.

Lemma duplicate_announcement_ids_rejected_witness :
  Inputs.duplicated manifest_path = Some (Json (JObj Inputs.duplicated_manifest))
  /\ normalize_ids [JInt 1; JStr " 1"] "manifest.announcement_ids" = Ok ["1"; "1"]
  /\ compile_update_config Inputs.duplicated = Raise (ConfigError AnnouncementIdsDuplicates).
Proof.
  split; [reflexivity | split; [reflexivity|]].
  refine (proj1 (duplicate_announcement_ids_rejected Inputs.duplicated
                   Inputs.duplicated_manifest eq_refl)
                [JInt 1; JStr " 1"] ["1"; "1"] 0 1 "1" eq_refl eq_refl _ eq_refl eq_refl).
  discriminate.
Defined.

Lemma read_json_not_latest_error fs path e :
  _read_json fs path = Raise e -> is_latest_error e = false.
Proof.
  unfold _read_json, read_and_parse.
  destruct (fs path) as [[| | |[]]|]; simpl; intros H; inversion H; reflexivity.
Qed.

Lemma normalize_id_where value where_ e :
  _normalize_id value where_ = Raise e ->
  e = ConfigError (InvalidAnnouncementId where_ value).
Proof.
  destruct value; simpl; try destruct (PyStr.isdigit _); intros H; inversion H; reflexivity.
Qed.

Lemma load_announcements_not_latest_error fs ids :
  forall acc e, load_announcements_from fs ids acc = Raise e -> is_latest_error e = false.
Proof.
  induction ids as [|ann_id rest IH]; simpl; intros acc e H; [discriminate|].
  destruct (path_exists fs (announcement_path ann_id)); simpl in H;
    [|inversion H; reflexivity].
  destruct (_read_json fs (announcement_path ann_id)) as [data|e1] eqn:Hread; simpl in H;
    [|inversion H; subst; eapply read_json_not_latest_error; eassumption].
  destruct (_normalize_id (dict_get_default "id" JNull data) (announcement_path ann_id))
    as [file_id|e2] eqn:Hid; simpl in H;
    [|inversion H; subst; apply normalize_id_where in Hid; subst; reflexivity].
  destruct (String.eqb file_id ann_id); simpl in H; [|inversion H; reflexivity].
  eapply IH; eassumption.
Qed.

Lemma load_donors_not_latest_error fs manifest e :
  load_donors fs manifest = Raise e -> is_latest_error e = false.
Proof.
  unfold load_donors, _read_json_list, read_and_parse, path_exists.
  destruct (PyStr.nonempty (donors_file_of manifest)); [|discriminate].
  destruct (fs (donors_file_of manifest)) as [[| | |[]]|]; simpl;
    try (intros H; inversion H; reflexivity).
  destruct (String.eqb (donors_file_of manifest) "donors.json"); simpl;
    intros H; inversion H; reflexivity.
Qed.

Lemma release_notes_not_latest_error announcements ids :
  forall acc e, release_notes_from announcements ids acc = Raise e -> is_latest_error e = false.
Proof.
  induction ids as [|ann_id rest IH]; simpl; intros acc e H; [discriminate|].
  unfold subscript in H.
  destruct (dict_get ann_id announcements) as [entry|]; simpl in H;
    [|inversion H; reflexivity].
  destruct (_build_release_note entry); eapply IH; eassumption.
Qed.

(** C8. With the manifest read, its ids accepted and its latest id normalized
    to [latest]: the check of the latest id passes exactly when [latest] is
    one of the normalized ids, and [compile_update_config] raises the error
    of that check exactly when it is not. *)
Theorem latest_announcement_id_must_be_listed :
  forall (fs : filesystem) (manifest : dict) (ids : list string) (latest : string),
    fs manifest_path = Some (Json (JObj manifest)) ->
    read_announcement_ids manifest = Ok ids ->
    _normalize_id (dict_get_default "latest_announcement_id" JNull manifest)
                  "manifest.latest_announcement_id" = Ok latest ->
    (read_latest_announcement_id manifest ids = Ok latest <-> In latest ids)
    /\ (compile_update_config fs = Raise (ConfigError (LatestNotInAnnouncementIds latest))
        <-> ~ In latest ids)
    /\ (forall e, compile_update_config fs = Raise e -> is_latest_error e = true ->
                  ~ In latest ids).
Proof.
  intros fs manifest ids latest Hm Hids Hlatest.
  assert (Hcheck : read_latest_announcement_id manifest ids
                   = if list_mem latest ids then Ok latest
                     else Raise (ConfigError (LatestNotInAnnouncementIds latest))).
  { unfold read_latest_announcement_id. rewrite Hlatest. simpl.
    now destruct (list_mem latest ids). }
  assert (Hlater : forall e, compile_update_config fs = Raise e -> is_latest_error e = true ->
                             ~ In latest ids).
  { intros e Hc He Hin. apply list_mem_In in Hin.
    rewrite (compile_reads_manifest _ _ Hm), Hids in Hc. simpl in Hc.
    rewrite Hcheck, Hin in Hc. simpl in Hc.
    destruct (_load_announcements fs ids) as [anns|e1] eqn:H1; simpl in Hc.
    2:{ inversion Hc; subst.
        apply load_announcements_not_latest_error in H1. congruence. }
    destruct (load_donors fs manifest) as [donors|e2] eqn:H2; simpl in Hc.
    2:{ inversion Hc; subst. apply load_donors_not_latest_error in H2. congruence. }
    unfold subscript in Hc.
    destruct (dict_get latest anns) as [active|]; simpl in Hc.
    2:{ inversion Hc; subst. discriminate. }
    destruct (release_notes_from anns ids []) as [notes|e3] eqn:H3; simpl in Hc.
    2:{ inversion Hc; subst. apply release_notes_not_latest_error in H3. congruence. }
    discriminate. }
  split; [|split].
  - rewrite Hcheck, <- list_mem_In. destruct (list_mem latest ids); split; congruence.
  - split.
    + intros Hc. exact (Hlater _ Hc eq_refl).
    + intros Hnot. rewrite (compile_reads_manifest _ _ Hm), Hids. simpl.
      rewrite Hcheck. destruct (list_mem latest ids) eqn:E; [|reflexivity].
      apply list_mem_In in E. contradiction.
  - exact Hlater.
Qed.

Lemma latest_announcement_id_must_be_listed_witness :
  Unlisted.fs manifest_path = Some (Json (JObj Unlisted.manifest))
  /\ read_announcement_ids Unlisted.manifest = Ok ["1"; "2"]
  /\ _normalize_id (JStr "3") "manifest.latest_announcement_id" = Ok "3"
  /\ (compile_update_config Unlisted.fs = Raise (ConfigError (LatestNotInAnnouncementIds "3"))
      <-> ~ In "3" ["1"; "2"]).
Proof.
  split; [reflexivity | split; [reflexivity | split; [reflexivity|]]].
  exact (proj1 (proj2 (latest_announcement_id_must_be_listed Unlisted.fs Unlisted.manifest
                         ["1"; "2"] "3" eq_refl eq_refl eq_refl))).
Defined.

(** ** The merged document *)

Lemma dict_get_assemble manifest latest active donors notes k :
  dict_get k (assemble manifest latest active donors notes)
  = if String.eqb k "release_notes" then Some (JList notes)
    else if String.eqb k "donors" then Some (JList donors)
    else if String.eqb k "announcement" then Some (announcement_of latest active)
    else if existsb (String.eqb k) internal_keys then None
    else dict_get k manifest.
Proof.
  unfold assemble.
  destruct (String.eqb_spec k "release_notes") as [->|H1]; [apply dict_get_set_eq|].
  rewrite dict_get_set_neq by assumption.
  destruct (String.eqb_spec k "donors") as [->|H2]; [apply dict_get_set_eq|].
  rewrite dict_get_set_neq by assumption.
  destruct (String.eqb_spec k "announcement") as [->|H3]; [apply dict_get_set_eq|].
  rewrite dict_get_set_neq by assumption.
  simpl.
  destruct (String.eqb_spec k "announcement_ids") as [->|H4].
  { simpl. rewrite !dict_get_pop_neq by discriminate. apply dict_get_pop_eq. }
  destruct (String.eqb_spec k "latest_announcement_id") as [->|H5].
  { simpl. rewrite !dict_get_pop_neq by discriminate. apply dict_get_pop_eq. }
  destruct (String.eqb_spec k "donors_file") as [->|H6].
  { simpl. rewrite !dict_get_pop_neq by discriminate. apply dict_get_pop_eq. }
  destruct (String.eqb_spec k "announcement_tag_index") as [->|H7].
  { simpl. apply dict_get_pop_eq. }
  simpl. now rewrite !dict_get_pop_neq by assumption.
Qed.

Lemma assemble_NoDup manifest latest active donors notes :
  NoDup (dict_keys manifest) ->
  NoDup (dict_keys (assemble manifest latest active donors notes)).
Proof.
  intros H. unfold assemble.
  repeat apply dict_set_NoDup. now repeat apply dict_pop_NoDup.
Qed.

Lemma existsb_eqb_In k keys : existsb (String.eqb k) keys = true <-> In k keys.
Proof. exact (list_mem_In k keys). Qed.

(** C3. When [compile_update_config] returns, the manifest was read from
    [manifest.json] and the merged document relates to it key by key: the
    four internal keys are absent, the three injected keys are present, and
    every other key has the value it has in the manifest (absent if absent
    there).  So the keys of the merged document are the injected keys and the
    manifest's keys that are not internal, and they are distinct when the
    manifest's are. *)
Theorem merged_is_manifest_minus_internal_plus_injected :
  forall (fs : filesystem) (merged : dict) (s : summary),
    compile_update_config fs = Ok (merged, s) ->
    exists manifest,
      fs manifest_path = Some (Json (JObj manifest))
      /\ (forall k, In k internal_keys -> dict_get k merged = None)
      /\ (forall k, In k injected_keys -> dict_get k merged <> None)
      /\ (forall k, ~ In k internal_keys -> ~ In k injected_keys ->
                    dict_get k merged = dict_get k manifest)
      /\ (forall k, In k (dict_keys merged)
                    <-> In k injected_keys
                        \/ (In k (dict_keys manifest) /\ ~ In k internal_keys))
      /\ (NoDup (dict_keys manifest) -> NoDup (dict_keys merged)).
Proof.
  intros fs merged s Hc.
  destruct (compile_ok_inv _ _ Hc) as (st & Hst & Hout).
  inversion Hout; subst merged s. clear Hout.
  exists (st_manifest st). split; [apply Hst|].
  assert (Hinternal : forall k, In k internal_keys ->
            dict_get k (assemble (st_manifest st) (st_latest st) (st_active st)
                          (st_donors st) (st_notes st)) = None).
  { intros k Hk. rewrite dict_get_assemble.
    simpl in Hk. destruct Hk as [<-|[<-|[<-|[<-|[]]]]]; reflexivity. }
  assert (Hinjected : forall k, In k injected_keys ->
            dict_get k (assemble (st_manifest st) (st_latest st) (st_active st)
                          (st_donors st) (st_notes st)) <> None).
  { intros k Hk. rewrite dict_get_assemble.
    simpl in Hk. destruct Hk as [<-|[<-|[<-|[]]]]; discriminate. }
  assert (Hother : forall k, ~ In k internal_keys -> ~ In k injected_keys ->
            dict_get k (assemble (st_manifest st) (st_latest st) (st_active st)
                          (st_donors st) (st_notes st)) = dict_get k (st_manifest st)).
  { intros k Hk1 Hk2. rewrite dict_get_assemble.
    destruct (String.eqb_spec k "release_notes") as [->|_]; [simpl in Hk2; tauto|].
    destruct (String.eqb_spec k "donors") as [->|_]; [simpl in Hk2; tauto|].
    destruct (String.eqb_spec k "announcement") as [->|_]; [simpl in Hk2; tauto|].
    destruct (existsb (String.eqb k) internal_keys) eqn:E; [|reflexivity].
    apply existsb_eqb_In in E. contradiction. }
  repeat split; try assumption.
  - intros Hin. apply dict_get_in_keys in Hin.
    destruct (in_dec string_dec k injected_keys) as [Hj|Hj]; [now left|].
    destruct (in_dec string_dec k internal_keys) as [Hi|Hi].
    + rewrite (Hinternal k Hi) in Hin. congruence.
    + right. rewrite (Hother k Hi Hj) in Hin. split; [now apply dict_get_in_keys | assumption].
  - intros [Hj|[Hm Hi]]; apply dict_get_in_keys.
    + now apply Hinjected.
    + destruct (in_dec string_dec k injected_keys) as [Hj|Hj]; [now apply Hinjected|].
      rewrite (Hother k Hi Hj). now apply dict_get_in_keys.
  - apply assemble_NoDup.
Qed.

Lemma merged_is_manifest_minus_internal_plus_injected_witness :
  compile_update_config Scenario.fs
  = Ok (Scenario.expected,
        {| summary_announcement_ids := ["1"; "2"];
           summary_latest_announcement_id := "2";
           release_notes_count := 1;
           donors_count := 0 |})
  /\ exists manifest,
      Scenario.fs manifest_path = Some (Json (JObj manifest))
      /\ (forall k, In k internal_keys -> dict_get k Scenario.expected = None)
      /\ (forall k, In k injected_keys -> dict_get k Scenario.expected <> None)
      /\ (forall k, ~ In k internal_keys -> ~ In k injected_keys ->
                    dict_get k Scenario.expected = dict_get k manifest)
      /\ (forall k, In k (dict_keys Scenario.expected)
                    <-> In k injected_keys
                        \/ (In k (dict_keys manifest) /\ ~ In k internal_keys))
      /\ (NoDup (dict_keys manifest) -> NoDup (dict_keys Scenario.expected)).
Proof.
  split.
  - reflexivity.
  - exact (merged_is_manifest_minus_internal_plus_injected Scenario.fs _ _ eq_refl).
Defined.

(** ** Donors *)

Lemma load_donors_cases fs manifest donors :
  load_donors fs manifest = Ok donors ->
  (donors_file_of manifest <> ""
   /\ fs (donors_file_of manifest) = Some (Json (JList donors)))
  \/ (donors = [] /\ donors_file_of manifest = "donors.json" /\ fs "donors.json" = None)
  \/ (donors = [] /\ donors_file_of manifest = "").
Proof.
  unfold load_donors, path_exists. intros H.
  destruct (PyStr.nonempty (donors_file_of manifest)) eqn:Hn.
  - apply nonempty_true in Hn.
    destruct (fs (donors_file_of manifest)) as [f|] eqn:Hf.
    + left. split; [assumption|]. apply read_json_list_ok in H. congruence.
    + right; left.
      destruct (String.eqb_spec (donors_file_of manifest) "donors.json") as [Heq|Hne];
        simpl in H; [|discriminate].
      inversion H. rewrite Heq in Hf. auto.
  - right; right. apply nonempty_false in Hn. inversion H. auto.
Qed.

Lemma read_latest_ok manifest ids latest :
  read_latest_announcement_id manifest ids = Ok latest ->
  _normalize_id (dict_get_default "latest_announcement_id" JNull manifest)
                "manifest.latest_announcement_id" = Ok latest
  /\ In latest ids.
Proof.
  unfold read_latest_announcement_id.
  destruct (_normalize_id _ _) as [l|]; simpl; [|discriminate].
  destruct (list_mem l ids) eqn:E; simpl; intros H; inversion H; subst.
  split; [reflexivity | now apply list_mem_In].
Qed.

(** Once the manifest is validated and the announcements and donors are
    loaded, nothing can fail any more. *)
Lemma compile_succeeds fs manifest ids latest anns donors :
  fs manifest_path = Some (Json (JObj manifest)) ->
  read_announcement_ids manifest = Ok ids ->
  read_latest_announcement_id manifest ids = Ok latest ->
  _load_announcements fs ids = Ok anns ->
  load_donors fs manifest = Ok donors ->
  exists active,
    dict_get latest anns = Some active
    /\ compile_update_config fs
       = Ok (output {| st_manifest := manifest; st_ids := ids; st_latest := latest;
                       st_announcements := anns; st_donors := donors; st_active := active;
                       st_notes := flat_map (note_of anns) ids |}).
Proof.
  intros Hm Hids Hlatest Hload Hdonors.
  destruct (load_announcements_ok _ _ _ Hload) as [_ Hdom].
  destruct (read_latest_ok _ _ _ Hlatest) as [_ Hin].
  destruct (dict_get latest anns) as [active|] eqn:Hget; [|now apply Hdom in Hin].
  exists active. split; [reflexivity|].
  apply compile_ok_intro. unfold staged; simpl.
  repeat split; try assumption.
  - unfold subscript. now rewrite Hget.
  - now apply (release_notes_from_spec anns ids []).
Qed.

(** The [release_notes] of a merged document are the notes of the declared
    ids, in declared order. *)
Lemma compile_release_notes fs merged s :
  compile_update_config fs = Ok (merged, s) ->
  exists st,
    staged fs st
    /\ dict_get "release_notes" merged
       = Some (JList (flat_map (note_of (st_announcements st)) (st_ids st)))
    /\ release_notes_count s
       = length (flat_map (note_of (st_announcements st)) (st_ids st)).
Proof.
  intros Hc. destruct (compile_ok_inv _ _ Hc) as (st & Hst & Hout).
  inversion Hout; subst merged s. clear Hout.
  exists st. split; [exact Hst|].
  destruct Hst as (_ & _ & _ & H4 & _ & _ & H7).
  destruct (load_announcements_ok _ _ _ H4) as [_ Hdom].
  rewrite (release_notes_from_spec _ _ [] Hdom) in H7. simpl in H7.
  assert (Hnotes : st_notes st = flat_map (note_of (st_announcements st)) (st_ids st))
    by congruence.
  rewrite dict_get_assemble. simpl. rewrite Hnotes. split; reflexivity.
Qed.

Lemma compile_fails_with_donors fs manifest e0 :
  fs manifest_path = Some (Json (JObj manifest)) ->
  load_donors fs manifest = Raise e0 ->
  exists e, compile_update_config fs = Raise e.
Proof.
  intros Hm Hd. rewrite (compile_reads_manifest _ _ Hm).
  destruct (read_announcement_ids manifest) as [ids|e1]; simpl; [|now exists e1].
  destruct (read_latest_announcement_id manifest ids) as [latest|e2]; simpl; [|now exists e2].
  destruct (_load_announcements fs ids) as [anns|e3]; simpl; [|now exists e3].
  rewrite Hd. simpl. now exists e0.
Qed.

(** C9. When [compile_update_config] returns, the [announcement] of the
    merged document is an object whose [id] is the normalized
    [latest_announcement_id] of the manifest, and its [donors] is the list
    the donor loading gave: the array in the donors file when that file
    exists, the empty list when the file is absent under the default name
    or when the name is blank. *)
Theorem merged_announcement_id_and_donors :
  forall (fs : filesystem) (merged : dict) (s : summary),
    compile_update_config fs = Ok (merged, s) ->
    exists manifest latest donors announcement,
      fs manifest_path = Some (Json (JObj manifest))
      /\ _normalize_id (dict_get_default "latest_announcement_id" JNull manifest)
                       "manifest.latest_announcement_id" = Ok latest
      /\ dict_get "announcement" merged = Some (JObj announcement)
      /\ dict_get "id" announcement = Some (JStr latest)
      /\ dict_get "donors" merged = Some (JList donors)
      /\ load_donors fs manifest = Ok donors
      /\ ((donors_file_of manifest <> ""
           /\ fs (donors_file_of manifest) = Some (Json (JList donors)))
          \/ (donors = [] /\ donors_file_of manifest = "donors.json"
              /\ fs "donors.json" = None)
          \/ (donors = [] /\ donors_file_of manifest = "")).
Proof.
  intros fs merged s Hc.
  destruct (compile_ok_inv _ _ Hc) as (st & Hst & Hout).
  inversion Hout; subst merged s. clear Hout.
  destruct Hst as (H1 & H2 & H3 & H4 & H5 & H6 & H7).
  exists (st_manifest st), (st_latest st), (st_donors st).
  eexists. split; [exact H1|].
  split; [apply (read_latest_ok _ _ _ H3)|].
  split; [rewrite dict_get_assemble; reflexivity|].
  split; [reflexivity|].
  split; [rewrite dict_get_assemble; reflexivity|].
  split; [exact H5|].
  now apply load_donors_cases.
Qed.

Lemma merged_announcement_id_and_donors_witness :
  compile_update_config Donors.supporters = Ok (Donors.expected [JStr "ada"])
  /\ exists manifest latest donors announcement,
      Donors.supporters manifest_path = Some (Json (JObj manifest))
      /\ _normalize_id (dict_get_default "latest_announcement_id" JNull manifest)
                       "manifest.latest_announcement_id" = Ok latest
      /\ dict_get "announcement" (fst (Donors.expected [JStr "ada"]))
         = Some (JObj announcement)
      /\ dict_get "id" announcement = Some (JStr latest)
      /\ dict_get "donors" (fst (Donors.expected [JStr "ada"])) = Some (JList donors)
      /\ load_donors Donors.supporters manifest = Ok donors
      /\ ((donors_file_of manifest <> ""
           /\ Donors.supporters (donors_file_of manifest) = Some (Json (JList donors)))
          \/ (donors = [] /\ donors_file_of manifest = "donors.json"
              /\ Donors.supporters "donors.json" = None)
          \/ (donors = [] /\ donors_file_of manifest = "")).
Proof.
  split; [reflexivity|].
  exact (merged_announcement_id_and_donors Donors.supporters _ _ eq_refl).
Defined.

(** C10. When [donors_file], converted to text and trimmed, is empty, which
    is not the default name, the donor loading reads no file and gives the
    empty list; and once the manifest is validated and the announcements are
    loaded, [compile_update_config] returns a merged document whose [donors]
    is the empty list. *)
Theorem blank_donors_file_skips_loading :
  forall (fs : filesystem) (manifest : dict),
    donors_file_of manifest = "" ->
    donors_file_of manifest <> "donors.json"
    /\ load_donors fs manifest = Ok []
    /\ (forall ids latest anns,
          fs manifest_path = Some (Json (JObj manifest)) ->
          read_announcement_ids manifest = Ok ids ->
          read_latest_announcement_id manifest ids = Ok latest ->
          _load_announcements fs ids = Ok anns ->
          exists merged s,
            compile_update_config fs = Ok (merged, s)
            /\ dict_get "donors" merged = Some (JList [])
            /\ donors_count s = 0).
Proof.
  intros fs manifest Hblank.
  assert (Hd : load_donors fs manifest = Ok []).
  { unfold load_donors. now rewrite Hblank. }
  split; [rewrite Hblank; discriminate|].
  split; [exact Hd|].
  intros ids latest anns Hm Hids Hlatest Hload.
  destruct (compile_succeeds _ _ _ _ _ _ Hm Hids Hlatest Hload Hd) as (active & _ & Hc).
  unfold output in Hc. simpl in Hc.
  eexists. eexists. split; [exact Hc|].
  split; [rewrite dict_get_assemble; reflexivity | reflexivity].
Qed.

Lemma blank_donors_file_skips_loading_witness :
  donors_file_of BlankDonorsFile.manifest = ""
  /\ load_donors (BlankDonorsFile.fs (Some Unreadable)) BlankDonorsFile.manifest = Ok []
  /\ exists merged s,
      compile_update_config (BlankDonorsFile.fs (Some Unreadable)) = Ok (merged, s)
      /\ dict_get "donors" merged = Some (JList [])
      /\ donors_count s = 0.
Proof.
  split; [reflexivity|].
  destruct (blank_donors_file_skips_loading (BlankDonorsFile.fs (Some Unreadable))
              BlankDonorsFile.manifest eq_refl) as (_ & Hd & Hc).
  split; [exact Hd|].
  exact (Hc ["1"] "1" [("1", [("id", JInt 1); ("title", JStr "Hi")])]
            eq_refl eq_refl eq_refl eq_refl).
Defined.

(** C4, as the code has it.  With the manifest read and a donors file name
    that is not blank: a file that exists is read as a JSON array, and
    anything else found there makes [compile_update_config] raise; an absent
    file under the default name gives the empty list; an absent file under
    any other name raises the not-found error, so that
    [compile_update_config] raises, with that very error once the manifest is
    validated and the announcements are loaded. *)
Theorem donors_loading_by_name :
  forall (fs : filesystem) (manifest : dict),
    fs manifest_path = Some (Json (JObj manifest)) ->
    donors_file_of manifest <> "" ->
    (forall f, fs (donors_file_of manifest) = Some f ->
        load_donors fs manifest = _read_json_list fs (donors_file_of manifest)
        /\ (forall donors, f = Json (JList donors) -> load_donors fs manifest = Ok donors)
        /\ ((forall donors, f <> Json (JList donors)) ->
            exists e, compile_update_config fs = Raise e))
    /\ (fs (donors_file_of manifest) = None ->
        donors_file_of manifest = "donors.json" ->
        load_donors fs manifest = Ok [])
    /\ (fs (donors_file_of manifest) = None ->
        donors_file_of manifest <> "donors.json" ->
        load_donors fs manifest
        = Raise (ConfigError (DonorsFileNotFound (donors_file_of manifest)))
        /\ (exists e, compile_update_config fs = Raise e)
        /\ (forall ids latest anns,
              read_announcement_ids manifest = Ok ids ->
              read_latest_announcement_id manifest ids = Ok latest ->
              _load_announcements fs ids = Ok anns ->
              compile_update_config fs
              = Raise (ConfigError (DonorsFileNotFound (donors_file_of manifest))))).
Proof.
  intros fs manifest Hm Hname.
  apply nonempty_true in Hname.
  split; [|split].
  - intros f Hf.
    assert (Hd : load_donors fs manifest = _read_json_list fs (donors_file_of manifest)).
    { unfold load_donors. now rewrite Hname, (path_exists_of_file _ _ _ Hf). }
    split; [exact Hd|]. split.
    + intros donors ->. rewrite Hd. now apply read_json_list_ok.
    + intros Hnot.
      destruct (load_donors fs manifest) as [donors|e0] eqn:Hl.
      * exfalso. symmetry in Hd. apply read_json_list_ok in Hd.
        rewrite Hf in Hd. inversion Hd. exact (Hnot donors H0).
      * exact (compile_fails_with_donors _ _ _ Hm Hl).
  - intros Hf Hdefault. unfold load_donors, path_exists.
    now rewrite Hname, Hf, Hdefault.
  - intros Hf Hcustom.
    assert (Hd : load_donors fs manifest
                 = Raise (ConfigError (DonorsFileNotFound (donors_file_of manifest)))).
    { unfold load_donors, path_exists. rewrite Hname, Hf.
      apply String.eqb_neq in Hcustom. now rewrite Hcustom. }
    split; [exact Hd|]. split.
    + exact (compile_fails_with_donors _ _ _ Hm Hd).
    + intros ids latest anns Hids Hlatest Hload.
      rewrite (compile_reads_manifest _ _ Hm), Hids. simpl.
      rewrite Hlatest. simpl. rewrite Hload. simpl. now rewrite Hd.
Qed.

Lemma donors_loading_by_name_witness :
  Donors.custom_absent manifest_path = Some (Json (JObj (Donors.manifest "custom.json")))
  /\ donors_file_of (Donors.manifest "custom.json") = "custom.json"
  /\ Donors.custom_absent "custom.json" = None
  /\ compile_update_config Donors.custom_absent
     = Raise (ConfigError (DonorsFileNotFound "custom.json")).
Proof.
  split; [reflexivity | split; [reflexivity | split; [reflexivity|]]].
  assert (H1 : donors_file_of (Donors.manifest "custom.json") <> "")
    by (simpl; discriminate).
  assert (H2 : donors_file_of (Donors.manifest "custom.json") <> "donors.json")
    by (simpl; discriminate).
  exact (proj2 (proj2 (proj2 (proj2 (donors_loading_by_name Donors.custom_absent
                                       (Donors.manifest "custom.json") eq_refl H1))
                               eq_refl H2))
               ["1"] "1" [("1", [("id", JInt 1)])] eq_refl eq_refl eq_refl).
Defined.

(** C4, as stated, fails for a blank name.  The manifest names the donors
    file " ", which trims to the empty name and is not the default name.
    Whether nothing is found at the path it resolves to or something
    unreadable is, no file is read and [compile_update_config] returns, with
    no donors. *)
Lemma donors_loading_blank_name_counterexample :
  BlankDonorsFile.fs None manifest_path = Some (Json (JObj BlankDonorsFile.manifest))
  /\ dict_get "donors_file" BlankDonorsFile.manifest = Some (JStr " ")
  /\ donors_file_of BlankDonorsFile.manifest = ""
  /\ donors_file_of BlankDonorsFile.manifest <> "donors.json"
  /\ BlankDonorsFile.fs None (donors_file_of BlankDonorsFile.manifest) = None
  /\ compile_update_config (BlankDonorsFile.fs None) = Ok BlankDonorsFile.expected
  /\ BlankDonorsFile.fs (Some Unreadable) (donors_file_of BlankDonorsFile.manifest)
     = Some Unreadable
  /\ _read_json_list (BlankDonorsFile.fs (Some Unreadable)) ""
     = Raise (ConfigError (FailedReading ""))
  /\ compile_update_config (BlankDonorsFile.fs (Some Unreadable))
     = Ok BlankDonorsFile.expected.
Proof.
  repeat split. discriminate.
Qed.

(** ** Overrides *)

Example overrides_url_only :
  _apply_overrides Release.merged Release.url_only = Release.after_url_only.
Proof. reflexivity. Qed.

Example overrides_url_and_version :
  _apply_overrides Release.merged Release.url_and_version = Release.after_url_and_version.
Proof. reflexivity. Qed.

Lemma get_platform_assign_if b vi name key text name' :
  get_platform (assign_if b vi name key text) name'
  = if b && String.eqb name' name
    then option_map (dict_set key (JStr text)) (get_platform vi name)
    else get_platform vi name'.
Proof.
  unfold assign_if, assign_platform. destruct b; simpl; [|reflexivity].
  destruct (String.eqb_spec name' name) as [->|Hne].
  - destruct (get_platform vi name) as [target|] eqn:E; simpl; [|exact E].
    unfold get_platform. now rewrite dict_get_set_eq.
  - destruct (get_platform vi name) as [target|] eqn:E; [|reflexivity].
    unfold get_platform. now rewrite dict_get_set_neq.
Qed.

Lemma is_platform_assign_if b vi name key text name' :
  is_some (get_platform (assign_if b vi name key text) name')
  = is_some (get_platform vi name').
Proof.
  rewrite get_platform_assign_if.
  destruct b; simpl; [|reflexivity].
  destruct (String.eqb_spec name' name) as [->|Hne]; [|reflexivity].
  now destruct (get_platform vi name).
Qed.

Lemma platform_field_assign_if b vi name key text name' key' :
  platform_field (assign_if b vi name key text) name' key'
  = if b && String.eqb name' name && String.eqb key' key && is_some (get_platform vi name)
    then Some (JStr text)
    else platform_field vi name' key'.
Proof.
  unfold platform_field. rewrite get_platform_assign_if.
  destruct b; simpl; [|reflexivity].
  destruct (String.eqb_spec name' name) as [->|Hne]; simpl; [|reflexivity].
  destruct (get_platform vi name) as [target|]; simpl;
    [|now rewrite andb_false_r].
  rewrite andb_true_r.
  destruct (String.eqb_spec key' key) as [->|Hk].
  - apply dict_get_set_eq.
  - now apply dict_get_set_neq.
Qed.

Lemma set_nonempty_assign_if vi name key value :
  set_nonempty vi name key value
  = assign_if (PyStr.nonempty (PyStr.strip value)) vi name key (PyStr.strip value).
Proof.
  unfold set_nonempty, assign_if, assign_platform.
  destruct (get_platform vi name); [reflexivity|].
  now destruct (PyStr.nonempty (PyStr.strip value)).
Qed.

Lemma default_to_tag_assign_if vi name url version tag_text :
  default_to_tag vi name url version tag_text
  = assign_if (PyStr.nonempty (PyStr.strip url) && negb (PyStr.nonempty (PyStr.strip version)))
              vi name "latest_version" tag_text.
Proof.
  unfold default_to_tag, assign_if, assign_platform.
  destruct (get_platform vi name); simpl; [reflexivity|].
  now destruct (PyStr.nonempty (PyStr.strip url) && negb (PyStr.nonempty (PyStr.strip version))).
Qed.

(** The [latest_version] of a platform object after the overrides. *)
Lemma latest_version_after_overrides vi o p target :
  get_platform vi (platform_name p) = Some target ->
  platform_field (override_version_info vi o) (platform_name p) "latest_version"
  = if PyStr.nonempty (PyStr.strip (tag_version o))
       && PyStr.nonempty (PyStr.strip (url_override o p))
       && negb (PyStr.nonempty (PyStr.strip (version_override o p)))
    then Some (JStr (PyStr.strip (tag_version o)))
    else if PyStr.nonempty (PyStr.strip (version_override o p))
    then Some (JStr (PyStr.strip (version_override o p)))
    else dict_get "latest_version" target.
Proof.
  intros Hp. unfold override_version_info.
  rewrite !default_to_tag_assign_if, !set_nonempty_assign_if.
  assert (Hbase : platform_field vi (platform_name p) "latest_version"
                  = dict_get "latest_version" target).
  { unfold platform_field. now rewrite Hp. }
  destruct (PyStr.nonempty (PyStr.strip (tag_version o)));
    rewrite ?platform_field_assign_if, ?is_platform_assign_if, Hbase;
    destruct p; simpl in Hp |- *; rewrite ?Hp; simpl;
    rewrite ?andb_false_r, ?andb_true_r; simpl;
    repeat match goal with
           | |- context [PyStr.nonempty ?s] => destruct (PyStr.nonempty s); simpl
           end;
    reflexivity.
Qed.

(** C5. On a merged document whose [version_info] is an object that holds
    the platform as an object: a version override that is not blank becomes
    the platform's [latest_version], whatever the tag; with a blank version
    override, a url override that is not blank and a tag that is not blank,
    the trimmed tag becomes the [latest_version]; and otherwise the
    [latest_version] stays as it was. *)
Theorem url_override_defaults_version_to_tag :
  forall (merged : dict) (o : overrides) (p : platform) (version_info target : dict),
    dict_get "version_info" merged = Some (JObj version_info) ->
    get_platform version_info (platform_name p) = Some target ->
    (PyStr.strip (version_override o p) <> "" ->
       latest_version_of (_apply_overrides merged o) (platform_name p)
       = Some (JStr (PyStr.strip (version_override o p))))
    /\ (PyStr.strip (version_override o p) = "" ->
        PyStr.strip (url_override o p) <> "" ->
        PyStr.strip (tag_version o) <> "" ->
        latest_version_of (_apply_overrides merged o) (platform_name p)
        = Some (JStr (PyStr.strip (tag_version o))))
    /\ (PyStr.strip (version_override o p) = "" ->
        PyStr.strip (url_override o p) = "" \/ PyStr.strip (tag_version o) = "" ->
        latest_version_of (_apply_overrides merged o) (platform_name p)
        = dict_get "latest_version" target).
Proof.
  intros merged o p vi target Hvi Hp.
  assert (Hafter : latest_version_of (_apply_overrides merged o) (platform_name p)
                   = platform_field (override_version_info vi o) (platform_name p)
                                    "latest_version").
  { unfold latest_version_of, _apply_overrides. rewrite Hvi.
    now rewrite dict_get_set_eq. }
  rewrite Hafter, (latest_version_after_overrides vi o p target Hp).
  split; [|split].
  - intros Hv. apply nonempty_true in Hv. rewrite Hv. simpl.
    now rewrite andb_false_r.
  - intros Hv Hu Ht.
    apply nonempty_false in Hv. apply nonempty_true in Hu. apply nonempty_true in Ht.
    now rewrite Hv, Hu, Ht.
  - intros Hv Hut. apply nonempty_false in Hv. rewrite Hv.
    destruct Hut as [Hu|Ht].
    + apply nonempty_false in Hu. rewrite Hu. now rewrite andb_false_r.
    + apply nonempty_false in Ht. now rewrite Ht.
Qed.

Lemma url_override_defaults_version_to_tag_witness :
  dict_get "version_info" Release.merged
  = Some (JObj [("android", JObj [("url", JStr "https://old"); ("latest_version", JStr "1.0.0")]);
                ("ios", JObj [("url", JStr "https://ios"); ("latest_version", JStr "1.0.0")]);
                ("windows", JStr "none")])
  /\ PyStr.strip (version_override Release.url_only Android) = ""
  /\ PyStr.strip (url_override Release.url_only Android) = "https://x"
  /\ PyStr.strip (tag_version Release.url_only) = "1.2.3"
  /\ latest_version_of (_apply_overrides Release.merged Release.url_only) "android"
     = Some (JStr "1.2.3")
  /\ PyStr.strip (version_override Release.url_and_version Android) = "9.9.9"
  /\ latest_version_of (_apply_overrides Release.merged Release.url_and_version) "android"
     = Some (JStr "9.9.9").
Proof.
  split; [reflexivity|].
  split; [reflexivity|]. split; [reflexivity|]. split; [reflexivity|].
  assert (Hu : PyStr.strip (url_override Release.url_only Android) <> "")
    by (simpl; discriminate).
  assert (Ht : PyStr.strip (tag_version Release.url_only) <> "")
    by (simpl; discriminate).
  assert (Hv : PyStr.strip (version_override Release.url_and_version Android) <> "")
    by (simpl; discriminate).
  split; [|split; [reflexivity|]].
  - exact (proj1 (proj2 (url_override_defaults_version_to_tag Release.merged Release.url_only
                           Android _ _ eq_refl eq_refl))
                 eq_refl Hu Ht).
  - exact (proj1 (url_override_defaults_version_to_tag Release.merged Release.url_and_version
                    Android _ _ eq_refl eq_refl)
                 Hv).
Defined.

(** * Further properties of the script *)

(** ** Trimming and lower-casing *)

Lemma isspace_lower_char c : PyStr.isspace_char (PyStr.lower_char c) = PyStr.isspace_char c.
Proof. destruct c as [[] [] [] [] [] [] [] []]; reflexivity. Qed.

Lemma lower_char_idempotent c : PyStr.lower_char (PyStr.lower_char c) = PyStr.lower_char c.
Proof. destruct c as [[] [] [] [] [] [] [] []]; reflexivity. Qed.

Lemma digit_not_space c : PyStr.isdigit_char c = true -> PyStr.isspace_char c = false.
Proof. destruct c as [[] [] [] [] [] [] [] []]; simpl; intros H; try reflexivity; discriminate. Qed.

Lemma rstrip_idempotent s : PyStr.rstrip (PyStr.rstrip s) = PyStr.rstrip s.
Proof.
  induction s as [|c r IH]; simpl; [reflexivity|].
  destruct (PyStr.rstrip r) as [|c' kept] eqn:E.
  - destruct (PyStr.isspace_char c) eqn:Hc; simpl; [reflexivity | now rewrite Hc].
  - simpl in IH |- *. now rewrite IH.
Qed.

Lemma lstrip_left_trimmed s : left_trimmed (PyStr.lstrip s).
Proof.
  induction s as [|c r IH]; simpl; [exact I|].
  destruct (PyStr.isspace_char c) eqn:Hc; simpl; auto.
Qed.

Lemma left_trimmed_lstrip s : left_trimmed s -> PyStr.lstrip s = s.
Proof. destruct s as [|c r]; simpl; [reflexivity | now intros ->]. Qed.

Lemma rstrip_left_trimmed s : left_trimmed s -> left_trimmed (PyStr.rstrip s).
Proof.
  destruct s as [|c r]; simpl; [auto|]. intros Hc.
  destruct (PyStr.rstrip r); [rewrite Hc|]; simpl; exact Hc.
Qed.

Lemma strip_idempotent s : PyStr.strip (PyStr.strip s) = PyStr.strip s.
Proof.
  unfold PyStr.strip.
  rewrite (left_trimmed_lstrip (PyStr.rstrip (PyStr.lstrip s))).
  - apply rstrip_idempotent.
  - apply rstrip_left_trimmed, lstrip_left_trimmed.
Qed.

Lemma lstrip_spaces_app pre s :
  PyStr.all_chars PyStr.isspace_char pre = true -> PyStr.lstrip (pre ++ s) = PyStr.lstrip s.
Proof.
  induction pre as [|c r IH]; simpl; [reflexivity|].
  intros H. apply andb_true_iff in H. destruct H as [Hc Hr]. rewrite Hc. auto.
Qed.

Lemma rstrip_spaces post :
  PyStr.all_chars PyStr.isspace_char post = true -> PyStr.rstrip post = "".
Proof.
  induction post as [|c r IH]; simpl; [reflexivity|].
  intros H. apply andb_true_iff in H. destruct H as [Hc Hr]. now rewrite IH, Hc.
Qed.

Lemma rstrip_app_spaces s post :
  PyStr.all_chars PyStr.isspace_char post = true -> PyStr.rstrip (s ++ post) = PyStr.rstrip s.
Proof.
  intros H. induction s as [|c r IH]; simpl; [now apply rstrip_spaces|].
  now rewrite IH.
Qed.

Lemma strip_surrounding_spaces pre s post :
  PyStr.all_chars PyStr.isspace_char pre = true ->
  PyStr.all_chars PyStr.isspace_char post = true ->
  PyStr.strip (pre ++ s ++ post) = PyStr.strip s.
Proof.
  intros Hpre Hpost. unfold PyStr.strip. rewrite (lstrip_spaces_app _ _ Hpre).
  induction s as [|c r IH]; simpl.
  - assert (H : PyStr.lstrip post = "").
    { clear -Hpost. induction post as [|c r IH]; simpl; [reflexivity|].
      simpl in Hpost. apply andb_true_iff in Hpost. destruct Hpost as [Hc Hr].
      rewrite Hc. auto. }
    now rewrite H.
  - destruct (PyStr.isspace_char c); [exact IH|].
    exact (rstrip_app_spaces (String c r) post Hpost).
Qed.

Lemma digits_strip s : PyStr.all_chars PyStr.isdigit_char s = true -> PyStr.strip s = s.
Proof.
  intros H. unfold PyStr.strip.
  assert (Hl : PyStr.lstrip s = s).
  { destruct s as [|c r]; simpl in *; [reflexivity|].
    apply andb_true_iff in H. destruct H as [Hc _]. now rewrite (digit_not_space c Hc). }
  rewrite Hl. induction s as [|c r IH]; simpl in *; [reflexivity|].
  apply andb_true_iff in H. destruct H as [Hc Hr].
  assert (Hr' : PyStr.lstrip r = r).
  { destruct r as [|c' r']; simpl in *; [reflexivity|].
    apply andb_true_iff in Hr. destruct Hr as [Hc' _]. now rewrite (digit_not_space c' Hc'). }
  rewrite (IH Hr Hr'). destruct r; [now rewrite (digit_not_space c Hc) | reflexivity].
Qed.

(** ** More on identifiers *)

(** X1. A digit-only id that [_normalize_id] returns is canonical: given back
    as a string it normalizes to itself, so that an integer that is not
    negative and its decimal text are the same id. *)
Theorem normalize_id_canonical :
  forall (value : json) (where_ where' : string) (text : string),
    _normalize_id value where_ = Ok text ->
    PyStr.isdigit text = true ->
    _normalize_id (JStr text) where' = Ok text.
Proof.
  intros value where_ where' text _ Hd. simpl.
  assert (Hs : PyStr.strip text = text).
  { apply digits_strip. unfold PyStr.isdigit in Hd.
    apply andb_true_iff in Hd. apply Hd. }
  now rewrite Hs, Hd.
Qed.

Lemma normalize_id_canonical_witness :
  _normalize_id (JInt 7) "manifest.announcement_ids" = Ok "7"
  /\ PyStr.isdigit "7" = true
  /\ _normalize_id (JStr "7") "announcements/7.json" = Ok "7".
Proof.
  split; [reflexivity | split; [reflexivity|]].
  exact (normalize_id_canonical (JInt 7) "manifest.announcement_ids" "announcements/7.json"
           "7" eq_refl eq_refl).
Defined.

(** X2. White space around the text of a string id does not matter: the
    padded string and the bare string are accepted with the same result or
    both rejected. *)
Theorem normalize_id_ignores_surrounding_spaces :
  forall (pre s post : string) (where_ : string),
    PyStr.all_chars PyStr.isspace_char pre = true ->
    PyStr.all_chars PyStr.isspace_char post = true ->
    (forall text, _normalize_id (JStr (pre ++ s ++ post)) where_ = Ok text
                  <-> _normalize_id (JStr s) where_ = Ok text)
    /\ ((exists e, _normalize_id (JStr (pre ++ s ++ post)) where_ = Raise e)
        <-> (exists e, _normalize_id (JStr s) where_ = Raise e)).
Proof.
  intros pre s post where_ Hpre Hpost. simpl.
  rewrite (strip_surrounding_spaces pre s post Hpre Hpost).
  destruct (PyStr.isdigit (PyStr.strip s)); split.
  - tauto.
  - split; intros [e H]; discriminate.
  - split; intros H; discriminate.
  - split; intros _; eexists; reflexivity.
Qed.

Lemma normalize_id_ignores_surrounding_spaces_witness :
  PyStr.all_chars PyStr.isspace_char "  " = true
  /\ PyStr.all_chars PyStr.isspace_char " " = true
  /\ (_normalize_id (JStr ("  " ++ "42" ++ " ")) "manifest.announcement_ids" = Ok "42"
      <-> _normalize_id (JStr "42") "manifest.announcement_ids" = Ok "42").
Proof.
  split; [reflexivity | split; [reflexivity|]].
  exact (proj1 (normalize_id_ignores_surrounding_spaces "  " "42" " "
                  "manifest.announcement_ids" eq_refl eq_refl) "42").
Defined.

(** ** More on loading announcements *)

Lemma dict_set_fresh {V : Type} (k : string) (v : V) (d : list (string * V)) :
  ~ In k (dict_keys d) -> dict_set k v d = (d ++ [(k, v)])%list.
Proof.
  induction d as [|[k' v'] d IH]; simpl; intros H; [reflexivity|].
  destruct (String.eqb_spec k k') as [->|Hne]; [tauto|].
  rewrite IH; tauto.
Qed.

Lemma dict_set_same {V : Type} (k : string) (v : V) (d : list (string * V)) :
  dict_get k d = Some v -> dict_set k v d = d.
Proof.
  induction d as [|[k' v'] d IH]; simpl; [discriminate|].
  destruct (String.eqb_spec k k') as [->|Hne]; intros H.
  - now inversion H.
  - now rewrite IH.
Qed.

Lemma load_announcements_from_app fs pre :
  forall post acc,
    load_announcements_from fs (pre ++ post) acc
    = (announcements <- load_announcements_from fs pre acc ;;
       load_announcements_from fs post announcements).
Proof.
  induction pre as [|ann_id rest IH]; simpl; intros post acc; [reflexivity|].
  destruct (path_exists fs (announcement_path ann_id)); simpl; [|reflexivity].
  destruct (_read_json fs (announcement_path ann_id)) as [data|]; simpl; [|reflexivity].
  destruct (_normalize_id (dict_get_default "id" JNull data) (announcement_path ann_id))
    as [file_id|]; simpl; [|reflexivity].
  destruct (String.eqb file_id ann_id); simpl; [apply IH | reflexivity].
Qed.

Lemma load_announcements_from_keys fs ids :
  forall acc anns,
    load_announcements_from fs ids acc = Ok anns ->
    NoDup ids ->
    (forall id, In id ids -> ~ In id (dict_keys acc)) ->
    dict_keys anns = (dict_keys acc ++ ids)%list.
Proof.
  induction ids as [|ann_id rest IH]; simpl; intros acc anns Hload Hnd Hfresh.
  - inversion Hload. now rewrite app_nil_r.
  - destruct (path_exists fs (announcement_path ann_id)); simpl in Hload; [|discriminate].
    destruct (_read_json fs (announcement_path ann_id)) as [data|]; simpl in Hload;
      [|discriminate].
    destruct (_normalize_id (dict_get_default "id" JNull data) (announcement_path ann_id))
      as [file_id|]; simpl in Hload; [|discriminate].
    destruct (String.eqb file_id ann_id); simpl in Hload; [|discriminate].
    inversion Hnd as [|? ? Hnotin Hnd']; subst.
    rewrite (IH _ _ Hload Hnd').
    + rewrite dict_set_fresh by auto.
      unfold dict_keys. rewrite map_app. simpl. now rewrite <- app_assoc.
    + intros id Hin Hkey. apply dict_keys_set in Hkey. destruct Hkey as [->|Hkey].
      * contradiction.
      * apply (Hfresh id); auto.
Qed.

(** X3. The dict [_load_announcements] returns for ids without repetition has
    exactly those ids as its keys, in the order of the list. *)
Theorem load_announcements_keeps_declared_order :
  forall (fs : filesystem) (ids : list string) (anns : list (string * dict)),
    NoDup ids ->
    _load_announcements fs ids = Ok anns ->
    dict_keys anns = ids.
Proof.
  intros fs ids anns Hnd Hload.
  apply (load_announcements_from_keys fs ids [] anns Hload Hnd).
  simpl. tauto.
Qed.

Lemma load_announcements_keeps_declared_order_witness :
  _load_announcements Scenario.fs ["2"; "1"]
  = Ok [("2", [("id", JInt 2); ("title", JStr "Hi"); ("show_when_up_to_date", JBool true)]);
        ("1", [("id", JInt 1); ("version", JStr "1.0"); ("items", JList [])])]
  /\ dict_keys [("2", [("id", JInt 2); ("title", JStr "Hi");
                      ("show_when_up_to_date", JBool true)]);
               ("1", [("id", JInt 1); ("version", JStr "1.0"); ("items", JList [])])]
     = ["2"; "1"].
Proof.
  split; [reflexivity|].
  assert (Hnd : NoDup ["2"; "1"]).
  { repeat constructor; simpl; intuition discriminate. }
  exact (load_announcements_keeps_declared_order Scenario.fs ["2"; "1"] _ Hnd eq_refl).
Defined.

(** X4. [_load_announcements] stops at the first id that is in fault.  When
    the ids before it load, an id whose file is missing raises the
    missing-file error for that file, an id whose file holds an object with
    another id raises the mismatch error naming both ids, and an id whose
    file holds an object with an id that is no id raises the invalid-id error;
    the ids after it are not looked at. *)
Theorem load_announcements_fails_fast :
  forall (fs : filesystem) (pre post : list string) (ann_id : string)
         (anns : list (string * dict)),
    _load_announcements fs pre = Ok anns ->
    (fs (announcement_path ann_id) = None ->
       _load_announcements fs (pre ++ ann_id :: post)
       = Raise (ConfigError (MissingAnnouncementFile (announcement_path ann_id))))
    /\ (forall data file_id,
          fs (announcement_path ann_id) = Some (Json (JObj data)) ->
          _normalize_id (dict_get_default "id" JNull data) (announcement_path ann_id)
          = Ok file_id ->
          file_id <> ann_id ->
          _load_announcements fs (pre ++ ann_id :: post)
          = Raise (ConfigError
                     (AnnouncementIdMismatch (announcement_path ann_id) ann_id file_id)))
    /\ (forall data e,
          fs (announcement_path ann_id) = Some (Json (JObj data)) ->
          _normalize_id (dict_get_default "id" JNull data) (announcement_path ann_id)
          = Raise e ->
          _load_announcements fs (pre ++ ann_id :: post)
          = Raise (ConfigError
                     (InvalidAnnouncementId (announcement_path ann_id)
                        (dict_get_default "id" JNull data)))).
Proof.
  intros fs pre post ann_id anns Hpre.
  unfold _load_announcements in *. rewrite load_announcements_from_app, Hpre. simpl.
  split; [|split].
  - intros Hf. unfold path_exists. now rewrite Hf.
  - intros data file_id Hf Hid Hne.
    rewrite (path_exists_of_file _ _ _ Hf). simpl.
    apply read_json_ok in Hf. rewrite Hf. simpl. rewrite Hid. simpl.
    apply String.eqb_neq in Hne. now rewrite Hne.
  - intros data e Hf Hid.
    rewrite (path_exists_of_file _ _ _ Hf). simpl.
    apply read_json_ok in Hf. rewrite Hf. simpl. rewrite Hid. simpl.
    now rewrite (normalize_id_where _ _ _ Hid).
Qed.

Lemma load_announcements_fails_fast_witness :
  _load_announcements Missing.fs ["1"] = Ok [("1", [("id", JInt 1)])]
  /\ Missing.fs (announcement_path "2") = None
  /\ _load_announcements Missing.fs (["1"] ++ "2" :: ["3"])
     = Raise (ConfigError (MissingAnnouncementFile "announcements/2.json")).
Proof.
  split; [reflexivity | split; [reflexivity|]].
  exact (proj1 (load_announcements_fails_fast Missing.fs ["1"] ["3"] "2" _ eq_refl) eq_refl).
Defined.

Lemma load_announcements_from_ext fs fs' ids :
  (forall id, In id ids -> fs' (announcement_path id) = fs (announcement_path id)) ->
  forall acc, load_announcements_from fs' ids acc = load_announcements_from fs ids acc.
Proof.
  induction ids as [|ann_id rest IH]; simpl; intros Hagree acc; [reflexivity|].
  unfold path_exists, _read_json, read_and_parse.
  rewrite (Hagree ann_id) by auto.
  destruct (fs (announcement_path ann_id)) as [[| | |[]]|]; simpl; try reflexivity.
  destruct (_normalize_id (dict_get_default "id" JNull fields) (announcement_path ann_id));
    simpl; [|reflexivity].
  destruct (String.eqb a ann_id); simpl; [|reflexivity].
  apply IH. intros id Hin. apply Hagree. auto.
Qed.

(** ** More on the compiler *)

Lemma load_donors_ext fs fs' manifest :
  fs' (donors_file_of manifest) = fs (donors_file_of manifest) ->
  load_donors fs' manifest = load_donors fs manifest.
Proof.
  intros H. unfold load_donors, path_exists, _read_json_list, read_and_parse.
  now rewrite H.
Qed.

(** X5. [compile_update_config] depends on the tree only through the
    manifest, the files of the declared ids and the donors file: two trees
    that agree on those paths give the same result, whatever else they hold. *)
Theorem compile_reads_only_named_files :
  forall (fs fs' : filesystem),
    (forall path, In path (read_set fs) -> fs' path = fs path) ->
    compile_update_config fs' = compile_update_config fs.
Proof.
  intros fs fs' Hagree.
  assert (Hm : fs' manifest_path = fs manifest_path).
  { apply Hagree. unfold read_set. now left. }
  destruct (fs manifest_path) as [[| | |data]|] eqn:E;
    try (unfold compile_update_config, path_exists, _read_json, read_and_parse;
         rewrite Hm, E; reflexivity).
  destruct data as [| | | | | |manifest];
    try (unfold compile_update_config, path_exists, _read_json, read_and_parse;
         rewrite Hm, E; reflexivity).
  rewrite (compile_reads_manifest _ _ Hm), (compile_reads_manifest _ _ E).
  unfold read_set in Hagree. rewrite E in Hagree.
  destruct (read_announcement_ids manifest) as [ids|]; simpl; [|reflexivity].
  destruct (read_latest_announcement_id manifest ids) as [latest|]; simpl; [|reflexivity].
  assert (Hl : _load_announcements fs' ids = _load_announcements fs ids).
  { apply load_announcements_from_ext. intros id Hin. apply Hagree.
    right. apply in_or_app. left. now apply in_map. }
  rewrite Hl.
  destruct (_load_announcements fs ids) as [anns|]; simpl; [|reflexivity].
  assert (Hd : load_donors fs' manifest = load_donors fs manifest).
  { destruct (PyStr.nonempty (donors_file_of manifest)) eqn:En.
    - apply load_donors_ext. apply Hagree. right. apply in_or_app. right. now left.
    - unfold load_donors. now rewrite En. }
  now rewrite Hd.
Qed.

Lemma compile_reads_only_named_files_witness :
  (forall path, In path (read_set Scenario.fs) -> Stray.fs path = Scenario.fs path)
  /\ Stray.fs "README.txt" <> Scenario.fs "README.txt"
  /\ compile_update_config Stray.fs = compile_update_config Scenario.fs.
Proof.
  assert (H : forall path, In path (read_set Scenario.fs) -> Stray.fs path = Scenario.fs path).
  { intros path Hin. simpl in Hin.
    destruct Hin as [<-|[<-|[<-|[<-|[]]]]]; reflexivity. }
  split; [exact H|]. split; [discriminate|].
  exact (compile_reads_only_named_files Scenario.fs Stray.fs H).
Defined.

Lemma read_json_expected fs path e :
  _read_json fs path = Raise e -> expected_failure fs e.
Proof.
  unfold _read_json, read_and_parse.
  destruct (fs path) as [[| | |[]]|] eqn:E; simpl; intros H; inversion H; simpl; auto.
Qed.

Lemma read_json_list_expected fs path e :
  _read_json_list fs path = Raise e -> expected_failure fs e.
Proof.
  unfold _read_json_list, read_and_parse.
  destruct (fs path) as [[| | |[]]|] eqn:E; simpl; intros H; inversion H; simpl; auto.
Qed.

Lemma normalize_ids_expected fs raw where_ e :
  normalize_ids raw where_ = Raise e -> expected_failure fs e.
Proof.
  induction raw as [|value rest IH]; simpl; [discriminate|].
  destruct (_normalize_id value where_) as [first|e1] eqn:E1; simpl.
  - destruct (normalize_ids rest where_) as [others|e2]; simpl; intros H; [discriminate|].
    inversion H; subst. now apply IH.
  - intros H. inversion H; subst. now rewrite (normalize_id_where _ _ _ E1).
Qed.

Lemma load_announcements_expected fs ids :
  forall acc e, load_announcements_from fs ids acc = Raise e -> expected_failure fs e.
Proof.
  induction ids as [|ann_id rest IH]; simpl; intros acc e H; [discriminate|].
  destruct (path_exists fs (announcement_path ann_id)); simpl in H;
    [|inversion H; exact I].
  destruct (_read_json fs (announcement_path ann_id)) as [data|e1] eqn:Hread; simpl in H;
    [|inversion H; subst; eapply read_json_expected; eassumption].
  destruct (_normalize_id (dict_get_default "id" JNull data) (announcement_path ann_id))
    as [file_id|e2] eqn:Hid; simpl in H;
    [|inversion H; subst; rewrite (normalize_id_where _ _ _ Hid); exact I].
  destruct (String.eqb file_id ann_id); simpl in H; [|inversion H; exact I].
  eapply IH; eassumption.
Qed.

Lemma load_donors_expected fs manifest e :
  load_donors fs manifest = Raise e -> expected_failure fs e.
Proof.
  unfold load_donors.
  destruct (PyStr.nonempty (donors_file_of manifest)); [|discriminate].
  destruct (path_exists fs (donors_file_of manifest)); [apply read_json_list_expected|].
  destruct (String.eqb (donors_file_of manifest) "donors.json"); simpl;
    intros H; inversion H; exact I.
Qed.

Lemma compile_failure_expected fs manifest e :
  fs manifest_path = Some (Json (JObj manifest)) ->
  compile_update_config fs = Raise e ->
  expected_failure fs e.
Proof.
  intros Hm Hc. rewrite (compile_reads_manifest _ _ Hm) in Hc.
  destruct (read_announcement_ids manifest) as [ids|e1] eqn:H1; simpl in Hc.
  2:{ inversion Hc; subst. unfold read_announcement_ids in H1.
      destruct (dict_get_default "announcement_ids" JNull manifest)
        as [| | | | |[|first others]|]; try (inversion H1; exact I).
      destruct (normalize_ids (first :: others) "manifest.announcement_ids")
        as [ids|e2] eqn:H2; simpl in H1.
      - destruct (negb (distinct_count ids =? length ids)%nat); inversion H1. exact I.
      - inversion H1; subst. eapply normalize_ids_expected; eassumption. }
  destruct (read_latest_announcement_id manifest ids) as [latest|e2] eqn:H2; simpl in Hc.
  2:{ inversion Hc; subst. unfold read_latest_announcement_id in H2.
      destruct (_normalize_id _ _) as [l|e3] eqn:H3; simpl in H2.
      - destruct (negb (list_mem l ids)); inversion H2. exact I.
      - inversion H2; subst. rewrite (normalize_id_where _ _ _ H3). exact I. }
  destruct (_load_announcements fs ids) as [anns|e3] eqn:H3; simpl in Hc.
  2:{ inversion Hc; subst. eapply load_announcements_expected; eassumption. }
  destruct (load_donors fs manifest) as [donors|e4] eqn:H4; simpl in Hc.
  2:{ inversion Hc; subst. eapply load_donors_expected; eassumption. }
  destruct (compile_succeeds _ _ _ _ _ _ Hm H1 H2 H3 H4) as (active & _ & Hok).
  rewrite (compile_reads_manifest _ _ Hm), H1 in Hok. simpl in Hok.
  rewrite H2 in Hok. simpl in Hok. rewrite H3 in Hok. simpl in Hok.
  rewrite H4 in Hok. simpl in Hok. congruence.
Qed.

Lemma compile_failure_cases fs e :
  compile_update_config fs = Raise e ->
  expected_failure fs e \/ e = ConfigError (ManifestNotFound manifest_path).
Proof.
  intros Hc. destruct (fs manifest_path) as [[| | |data]|] eqn:E.
  - left. unfold compile_update_config, path_exists, _read_json, read_and_parse in Hc.
    rewrite E in Hc. inversion Hc. exact I.
  - left. unfold compile_update_config, path_exists, _read_json, read_and_parse in Hc.
    rewrite E in Hc. inversion Hc. exact E.
  - left. unfold compile_update_config, path_exists, _read_json, read_and_parse in Hc.
    rewrite E in Hc. inversion Hc. exact I.
  - destruct data as [| | | | | |manifest];
      try (left; unfold compile_update_config, path_exists, _read_json, read_and_parse in Hc;
           rewrite E in Hc; inversion Hc; exact I).
    left. exact (compile_failure_expected _ _ _ E Hc).
  - right. unfold compile_update_config, path_exists in Hc. rewrite E in Hc.
    now inversion Hc.
Qed.

(** X6. [compile_update_config] never raises [KeyError]: every id of the
    list given to [_load_announcements] is a key of the dict it returns, so
    the lookups [announcements[latest_announcement_id]] and
    [announcements[ann_id]] cannot miss. *)
Theorem compile_never_raises_key_error :
  forall (fs : filesystem),
    (forall key, compile_update_config fs <> Raise (KeyError key))
    /\ (forall ids anns ann_id,
          _load_announcements fs ids = Ok anns ->
          In ann_id ids ->
          exists entry, subscript ann_id anns = Ok entry).
Proof.
  intros fs. split.
  - intros key Hc.
    destruct (compile_failure_cases fs _ Hc) as [He|He]; [exact He | discriminate].
  - intros ids anns ann_id Hload Hin.
    destruct (load_announcements_ok _ _ _ Hload) as [_ Hdom].
    specialize (Hdom ann_id Hin). unfold subscript.
    destruct (dict_get ann_id anns) as [entry|]; [now exists entry | congruence].
Qed.

Lemma compile_never_raises_key_error_witness :
  _load_announcements Scenario.fs ["1"; "2"]
  = Ok [("1", [("id", JInt 1); ("version", JStr "1.0"); ("items", JList [])]);
        ("2", [("id", JInt 2); ("title", JStr "Hi"); ("show_when_up_to_date", JBool true)])]
  /\ In "2" ["1"; "2"]
  /\ exists entry,
       subscript "2"
         [("1", [("id", JInt 1); ("version", JStr "1.0"); ("items", JList [])]);
          ("2", [("id", JInt 2); ("title", JStr "Hi");
                 ("show_when_up_to_date", JBool true)])]
       = Ok entry.
Proof.
  assert (Hin : In "2" ["1"; "2"]) by (simpl; auto).
  split; [reflexivity | split; [exact Hin|]].
  exact (proj2 (compile_never_raises_key_error Scenario.fs) ["1"; "2"] _ "2" eq_refl Hin).
Defined.

(** X7. [compile_update_config] raises the manifest-not-found error exactly
    when nothing exists at [manifest.json]; no later step raises it. *)
Theorem manifest_not_found_iff_absent :
  forall (fs : filesystem) (path : string),
    compile_update_config fs = Raise (ConfigError (ManifestNotFound path))
    <-> fs manifest_path = None /\ path = manifest_path.
Proof.
  intros fs path. split.
  - intros Hc. destruct (fs manifest_path) as [[| | |data]|] eqn:E;
      try (unfold compile_update_config, path_exists, _read_json, read_and_parse in Hc;
           rewrite E in Hc; simpl in Hc; inversion Hc; fail).
    + destruct data as [| | | | | |manifest];
        try (unfold compile_update_config, path_exists, _read_json, read_and_parse in Hc;
             rewrite E in Hc; simpl in Hc; inversion Hc; fail).
      exfalso. exact (compile_failure_expected _ _ _ E Hc).
    + unfold compile_update_config, path_exists in Hc. rewrite E in Hc.
      simpl in Hc. inversion Hc. auto.
  - intros [E ->]. unfold compile_update_config, path_exists. now rewrite E.
Qed.

Lemma manifest_not_found_iff_absent_witness :
  Empty.fs manifest_path = None
  /\ compile_update_config Empty.fs = Raise (ConfigError (ManifestNotFound "manifest.json")).
Proof.
  split; [reflexivity|].
  exact (proj2 (manifest_not_found_iff_absent Empty.fs "manifest.json") (conj eq_refl eq_refl)).
Defined.

Lemma normalize_ids_length raw where_ ids :
  normalize_ids raw where_ = Ok ids -> length ids = length raw.
Proof.
  revert ids. induction raw as [|value rest IH]; simpl; intros ids H.
  - now inversion H.
  - destruct (_normalize_id value where_) as [first|]; simpl in H; [|discriminate].
    destruct (normalize_ids rest where_) as [others|]; simpl in H; [|discriminate].
    inversion H. simpl. now rewrite (IH others).
Qed.

Lemma read_announcement_ids_ok manifest ids :
  read_announcement_ids manifest = Ok ids ->
  exists raw,
    dict_get "announcement_ids" manifest = Some (JList raw)
    /\ normalize_ids raw "manifest.announcement_ids" = Ok ids
    /\ ids <> []
    /\ NoDup ids.
Proof.
  unfold read_announcement_ids, dict_get_default. intros H.
  destruct (dict_get "announcement_ids" manifest) as [[| | | | |[|first others]|]|];
    try discriminate.
  destruct (normalize_ids (first :: others) "manifest.announcement_ids") as [l|] eqn:E;
    simpl in H; [|discriminate].
  destruct (Nat.eqb_spec (distinct_count l) (length l)) as [Heq|]; simpl in H; [|discriminate].
  inversion H; subst l. exists (first :: others).
  split; [reflexivity|]. split; [exact E|]. split.
  - apply normalize_ids_length in E. destruct ids; [discriminate | discriminate].
  - now apply distinct_count_NoDup.
Qed.

Lemma note_of_length announcements ids :
  length (flat_map (note_of announcements) ids) <= length ids.
Proof.
  induction ids as [|id rest IH]; simpl; [lia|].
  rewrite length_app. unfold note_of at 1.
  destruct (dict_get id announcements) as [entry|]; simpl; [|lia].
  destruct (_build_release_note entry); simpl; lia.
Qed.

(** X8. The summary of a compilation that returns agrees with the merged
    document and with the checks made: its ids are a non-empty list without
    repetition that holds its latest id, which is the [id] of the merged
    [announcement]; its two counts are the lengths of the merged
    [release_notes] and [donors]; and there is at most one release note per
    id. *)
Theorem summary_agrees_with_merged :
  forall (fs : filesystem) (merged : dict) (s : summary),
    compile_update_config fs = Ok (merged, s) ->
    summary_announcement_ids s <> []
    /\ NoDup (summary_announcement_ids s)
    /\ In (summary_latest_announcement_id s) (summary_announcement_ids s)
    /\ (exists announcement,
          dict_get "announcement" merged = Some (JObj announcement)
          /\ dict_get "id" announcement = Some (JStr (summary_latest_announcement_id s)))
    /\ (exists notes donors,
          dict_get "release_notes" merged = Some (JList notes)
          /\ release_notes_count s = length notes
          /\ dict_get "donors" merged = Some (JList donors)
          /\ donors_count s = length donors
          /\ length notes <= length (summary_announcement_ids s)).
Proof.
  intros fs merged s Hc.
  destruct (compile_release_notes _ _ _ Hc) as (st' & _ & Hnotes & Hcount).
  destruct (compile_ok_inv _ _ Hc) as (st & Hst & Hout).
  inversion Hout; subst merged s. clear Hout. simpl in *.
  destruct Hst as (H1 & H2 & H3 & H4 & H5 & H6 & H7).
  destruct (read_announcement_ids_ok _ _ H2) as (raw & _ & _ & Hne & Hnd).
  destruct (read_latest_ok _ _ _ H3) as [_ Hin].
  split; [exact Hne|]. split; [exact Hnd|]. split; [exact Hin|]. split.
  - eexists. split; [rewrite dict_get_assemble; reflexivity | reflexivity].
  - exists (st_notes st), (st_donors st).
    split; [rewrite dict_get_assemble; reflexivity|].
    split; [reflexivity|].
    split; [rewrite dict_get_assemble; reflexivity|].
    split; [reflexivity|].
    destruct (load_announcements_ok _ _ _ H4) as [_ Hdom].
    rewrite (release_notes_from_spec _ _ [] Hdom) in H7. simpl in H7.
    inversion H7 as [Hn]. apply note_of_length.
Qed.

Lemma summary_agrees_with_merged_witness :
  compile_update_config Scenario.fs
  = Ok (Scenario.expected,
        {| summary_announcement_ids := ["1"; "2"];
           summary_latest_announcement_id := "2";
           release_notes_count := 1;
           donors_count := 0 |})
  /\ NoDup ["1"; "2"]
  /\ In "2" ["1"; "2"].
Proof.
  split; [reflexivity|].
  pose proof (summary_agrees_with_merged Scenario.fs _ _ eq_refl) as H.
  simpl in H. split; [exact (proj1 (proj2 H)) | exact (proj1 (proj2 (proj2 H)))].
Defined.

(** X9. The [announcement] of the merged document is built from the file of
    the latest id: that file holds an object, the title is the trimmed text
    of its [title] (empty when it has none) and is itself trimmed, the flag is
    the truth value of its [show_when_up_to_date] (false when it has none),
    and [contents] and [new_donor_ids] are its own, or the empty object and
    the empty list when it has none. *)
Theorem merged_announcement_comes_from_latest_file :
  forall (fs : filesystem) (merged : dict) (s : summary),
    compile_update_config fs = Ok (merged, s) ->
    exists active title flag,
      fs (announcement_path (summary_latest_announcement_id s)) = Some (Json (JObj active))
      /\ dict_get "announcement" merged
         = Some (JObj [("id", JStr (summary_latest_announcement_id s));
                       ("title", JStr title);
                       ("show_when_up_to_date", JBool flag);
                       ("contents", dict_get_default "contents" (JObj []) active);
                       ("new_donor_ids", dict_get_default "new_donor_ids" (JList []) active)])
      /\ PyStr.strip title = title
      /\ (forall x, dict_get "title" active = Some x -> title = PyStr.strip (py_str x))
      /\ (dict_get "title" active = None -> title = "")
      /\ (forall x, dict_get "show_when_up_to_date" active = Some x -> flag = py_bool x)
      /\ (dict_get "show_when_up_to_date" active = None -> flag = false).
Proof.
  intros fs merged s Hc.
  destruct (compile_ok_inv _ _ Hc) as (st & Hst & Hout).
  inversion Hout; subst merged s. clear Hout. simpl.
  destruct Hst as (H1 & H2 & H3 & H4 & H5 & H6 & H7).
  unfold subscript in H6.
  destruct (dict_get (st_latest st) (st_announcements st)) as [active|] eqn:Hget;
    [|discriminate].
  inversion H6 as [Hactive].
  destruct (load_announcements_ok _ _ _ H4) as [Hall _].
  destruct (Hall _ _ Hget) as [Hfile _].
  exists active.
  exists (PyStr.strip (py_str (dict_get_default "title" (JStr "") active))).
  exists (py_bool (dict_get_default "show_when_up_to_date" (JBool false) active)).
  split; [exact Hfile|].
  split; [rewrite dict_get_assemble, <- Hactive; reflexivity|].
  split; [apply strip_idempotent|].
  unfold dict_get_default.
  repeat split; intros; try rewrite H; reflexivity.
Qed.

Lemma merged_announcement_comes_from_latest_file_witness :
  compile_update_config Scenario.fs
  = Ok (Scenario.expected,
        {| summary_announcement_ids := ["1"; "2"];
           summary_latest_announcement_id := "2";
           release_notes_count := 1;
           donors_count := 0 |})
  /\ exists active title flag,
      Scenario.fs (announcement_path "2") = Some (Json (JObj active))
      /\ dict_get "announcement" Scenario.expected
         = Some (JObj [("id", JStr "2");
                       ("title", JStr title);
                       ("show_when_up_to_date", JBool flag);
                       ("contents", dict_get_default "contents" (JObj []) active);
                       ("new_donor_ids", dict_get_default "new_donor_ids" (JList []) active)])
      /\ PyStr.strip title = title
      /\ (forall x, dict_get "title" active = Some x -> title = PyStr.strip (py_str x))
      /\ (dict_get "title" active = None -> title = "")
      /\ (forall x, dict_get "show_when_up_to_date" active = Some x -> flag = py_bool x)
      /\ (dict_get "show_when_up_to_date" active = None -> flag = false).
Proof.
  split; [reflexivity|].
  exact (merged_announcement_comes_from_latest_file Scenario.fs _ _ eq_refl).
Defined.

Lemma flat_map_agree {A B : Type} (f g : A -> list B) (l : list A) :
  (forall a, In a l -> f a = g a) -> flat_map f l = flat_map g l.
Proof.
  induction l as [|a l IH]; simpl; intros H; [reflexivity|].
  rewrite (H a) by auto. rewrite IH by auto. reflexivity.
Qed.

(** X10. The [release_notes] of the merged document are a function of the
    announcement files alone: the notes [_build_release_note] gives for the
    file of each declared id, in declared order. *)
Theorem merged_release_notes_come_from_files :
  forall (fs : filesystem) (merged : dict) (s : summary),
    compile_update_config fs = Ok (merged, s) ->
    dict_get "release_notes" merged
    = Some (JList (flat_map (file_note fs) (summary_announcement_ids s))).
Proof.
  intros fs merged s Hc.
  destruct (compile_release_notes _ _ _ Hc) as (st & Hst & Hnotes & _).
  destruct (compile_ok_inv _ _ Hc) as (st0 & Hst0 & Hout).
  assert (Hsame : st_ids st0 = st_ids st /\ st_announcements st0 = st_announcements st).
  { destruct Hst as (A1 & A2 & A3 & A4 & _), Hst0 as (B1 & B2 & B3 & B4 & _).
    rewrite A1 in B1. inversion B1 as [Hm]. rewrite <- Hm in B2.
    rewrite A2 in B2. inversion B2 as [Hi]. rewrite <- Hi in B4.
    rewrite A4 in B4. inversion B4. auto. }
  inversion Hout; subst merged s. simpl. rewrite Hnotes.
  destruct Hsame as [-> _]. f_equal. f_equal.
  apply flat_map_agree. intros id Hin.
  destruct Hst as (_ & _ & _ & H4 & _).
  destruct (load_announcements_ok _ _ _ H4) as [Hall Hdom].
  unfold note_of, file_note.
  destruct (dict_get id (st_announcements st)) as [entry|] eqn:Hget;
    [|now apply Hdom in Hin].
  destruct (Hall _ _ Hget) as [Hfile _]. now rewrite Hfile.
Qed.

Lemma merged_release_notes_come_from_files_witness :
  compile_update_config Scenario.fs
  = Ok (Scenario.expected,
        {| summary_announcement_ids := ["1"; "2"];
           summary_latest_announcement_id := "2";
           release_notes_count := 1;
           donors_count := 0 |})
  /\ dict_get "release_notes" Scenario.expected
     = Some (JList (flat_map (file_note Scenario.fs) ["1"; "2"])).
Proof.
  split; [reflexivity|].
  exact (merged_release_notes_come_from_files Scenario.fs _ _ eq_refl).
Defined.

(** ** The normal form of release notes *)

Lemma lstrip_lower s : PyStr.lstrip (PyStr.lower s) = PyStr.lower (PyStr.lstrip s).
Proof.
  unfold PyStr.lower. induction s as [|c r IH]; simpl; [reflexivity|].
  rewrite isspace_lower_char. destruct (PyStr.isspace_char c); [exact IH | reflexivity].
Qed.

Lemma rstrip_lower s : PyStr.rstrip (PyStr.lower s) = PyStr.lower (PyStr.rstrip s).
Proof.
  unfold PyStr.lower. induction s as [|c r IH]; simpl; [reflexivity|].
  rewrite IH, isspace_lower_char.
  destruct (PyStr.rstrip r); simpl; [|reflexivity].
  now destruct (PyStr.isspace_char c).
Qed.

Lemma strip_lower s : PyStr.strip (PyStr.lower s) = PyStr.lower (PyStr.strip s).
Proof. unfold PyStr.strip. now rewrite lstrip_lower, rstrip_lower. Qed.

Lemma lower_idempotent s : PyStr.lower (PyStr.lower s) = PyStr.lower s.
Proof.
  unfold PyStr.lower. induction s as [|c r IH]; simpl; [reflexivity|].
  now rewrite lower_char_idempotent, IH.
Qed.

Lemma language_code_normal key :
  PyStr.lower (PyStr.strip (PyStr.lower (PyStr.strip key))) = PyStr.lower (PyStr.strip key).
Proof. now rewrite strip_lower, strip_idempotent, lower_idempotent. Qed.

Lemma stripped_nonempty_normal xs : Forall normal_text (map JStr (stripped_nonempty xs)).
Proof.
  apply Forall_forall. intros x Hin.
  apply in_map_iff in Hin. destruct Hin as (s & <- & Hs).
  unfold stripped_nonempty in Hs. apply filter_In in Hs. destruct Hs as [Hs Hne].
  apply in_map_iff in Hs. destruct Hs as (y & <- & _).
  exists (PyStr.strip (py_str y)). split; [reflexivity|]. split.
  - now apply nonempty_true.
  - apply strip_idempotent.
Qed.

Lemma localized_values_normal value : Forall normal_text (map JStr (localized_values value)).
Proof.
  destruct value as [| | | |s|xs|fields]; simpl; try constructor.
  - destruct (PyStr.nonempty (PyStr.strip s)) eqn:E; simpl; constructor; [|constructor].
    exists (PyStr.strip s). split; [reflexivity|]. split.
    + now apply nonempty_true.
    + apply strip_idempotent.
  - apply stripped_nonempty_normal.
Qed.

Lemma Forall_dict_set {V : Type} (Q : string * V -> Prop) k v (d : list (string * V)) :
  Forall Q d -> Q (k, v) -> Forall Q (dict_set k v d).
Proof.
  intros Hd Hq. induction d as [|[k' v'] d IH]; simpl.
  - now constructor.
  - inversion Hd; subst. destruct (String.eqb_spec k k') as [->|Hne].
    + now constructor.
    + constructor; auto.
Qed.

Lemma localize_normal contents :
  forall localized,
    NoDup (dict_keys localized) /\ Forall normal_language localized ->
    NoDup (dict_keys (localize contents localized))
    /\ Forall normal_language (localize contents localized).
Proof.
  induction contents as [|[key value] rest IH]; simpl; intros localized H; [exact H|].
  destruct (PyStr.nonempty (PyStr.lower (PyStr.strip key))) eqn:Hlang; simpl; [|now apply IH].
  destruct (localized_values value) as [|v vs] eqn:Hv; simpl; [now apply IH|].
  apply IH. destruct H as [Hnd Hall]. split; [now apply dict_set_NoDup|].
  apply Forall_dict_set; [exact Hall|].
  split; [now apply nonempty_true|]. split; [apply language_code_normal|].
  exists (map JStr (v :: vs)). split; [reflexivity|]. split; [discriminate|].
  rewrite <- Hv. apply localized_values_normal.
Qed.

Lemma normalize_contents_normal contents : normal_contents (normalize_contents contents).
Proof.
  destruct contents as [| | | |s|xs|fields]; simpl; try constructor.
  - destruct (PyStr.nonempty (PyStr.strip s)) eqn:E; simpl; constructor; [|constructor].
    exists (PyStr.strip s). split; [reflexivity|]. split.
    + now apply nonempty_true.
    + apply strip_idempotent.
  - apply stripped_nonempty_normal.
  - apply (localize_normal fields []). split; constructor.
  - apply (localize_normal fields []). split; constructor.
Qed.

Lemma normalize_item_normal item : Forall normal_item (normalize_item item).
Proof.
  destruct item as [| | | | | |fields]; simpl; try constructor.
  destruct (PyStr.nonempty (item_category fields)) eqn:Hc; simpl.
  - constructor; [|constructor].
    exists (item_category fields), (item_contents fields).
    split; [reflexivity|]. split; [apply strip_idempotent|].
    split; [apply normalize_contents_normal|]. left. now apply nonempty_true.
  - destruct (py_bool (item_contents fields)) eqn:Hb; simpl; constructor; [|constructor].
    exists (item_category fields), (item_contents fields).
    split; [reflexivity|]. split; [apply strip_idempotent|].
    split; [apply normalize_contents_normal|]. now right.
Qed.

Lemma release_items_normal entry : Forall normal_item (release_items entry).
Proof.
  unfold release_items. rewrite normalize_items_from_spec. simpl.
  induction (entry_items entry) as [|item rest IH]; simpl; [constructor|].
  apply Forall_app. split; [apply normalize_item_normal | exact IH].
Qed.

(** X11. Every release note [_build_release_note] gives is in normal form:
    version and date are trimmed texts, one of version and items is not
    empty, and each item has a trimmed category and contents that are either
    a list of trimmed non-empty texts or an object whose keys are distinct
    non-empty lower-case trimmed language codes, each with a non-empty list
    of such texts; no item has both an empty category and empty contents. *)
Theorem release_note_is_normal :
  forall (entry : dict) (note : json),
    _build_release_note entry = Some note -> normal_note note.
Proof.
  intros entry note H. unfold _build_release_note in H.
  destruct (negb (PyStr.nonempty (release_version entry)) && is_nil (release_items entry))
    eqn:E; [discriminate|].
  inversion H; subst note. clear H.
  exists (release_version entry), (release_date entry), (release_items entry).
  split; [reflexivity|]. split; [apply strip_idempotent|]. split; [apply strip_idempotent|].
  split; [apply release_items_normal|].
  apply andb_false_iff in E. destruct E as [E|E].
  - left. apply nonempty_true. now apply negb_false_iff in E.
  - right. intros Hnil. apply is_nil_true in Hnil. congruence.
Qed.

Lemma release_note_is_normal_witness :
  _build_release_note
    [("version", JStr " 1.0 ");
     ("items", JList [JObj [("contents", JObj [("EN ", JStr " hello "); ("de", JList [])])]])]
  = Some (JObj [("version", JStr "1.0"); ("date", JStr "");
                ("items",
                  JList [JObj [("category", JStr "");
                               ("contents", JObj [("en", JList [JStr "hello"])])]])])
  /\ normal_note
       (JObj [("version", JStr "1.0"); ("date", JStr "");
              ("items",
                JList [JObj [("category", JStr "");
                             ("contents", JObj [("en", JList [JStr "hello"])])]])]).
Proof.
  split; [reflexivity|].
  exact (release_note_is_normal
           [("version", JStr " 1.0 ");
            ("items",
              JList [JObj [("contents", JObj [("EN ", JStr " hello "); ("de", JList [])])]])]
           _ eq_refl).
Defined.

Lemma normal_texts_fixed xs :
  Forall normal_text xs -> map JStr (stripped_nonempty xs) = xs.
Proof.
  unfold stripped_nonempty. induction 1 as [|x xs Hx _ IH]; simpl; [reflexivity|].
  destruct Hx as (s & -> & Hne & Hs). simpl. rewrite Hs.
  apply nonempty_true in Hne. rewrite Hne. simpl. now rewrite IH.
Qed.

Lemma localize_fixed fields :
  NoDup (dict_keys fields) ->
  Forall normal_language fields ->
  forall localized,
    (forall k, In k (dict_keys fields) -> ~ In k (dict_keys localized)) ->
    localize fields localized = (localized ++ fields)%list.
Proof.
  induction fields as [|[key value] rest IH]; simpl; intros Hnd Hall localized Hfresh.
  - now rewrite app_nil_r.
  - inversion Hnd as [|? ? Hnotin Hnd']; subst.
    inversion Hall as [|? ? Hkv Hall']; subst.
    destruct Hkv as (Hne & Hcode & xs & Hval & Hxs & Htexts). simpl in *. subst value.
    rewrite Hcode. apply nonempty_true in Hne. rewrite Hne. simpl.
    rewrite (normal_texts_fixed xs Htexts).
    assert (Hs : stripped_nonempty xs <> []).
    { intros Hnil. apply Hxs. rewrite <- (normal_texts_fixed xs Htexts), Hnil. reflexivity. }
    destruct (stripped_nonempty xs) as [|v vs] eqn:Hv; [congruence|]. simpl.
    rewrite IH; auto.
    + rewrite dict_set_fresh by (apply Hfresh; auto).
      now rewrite <- app_assoc.
    + intros k Hk Hin. apply dict_keys_set in Hin. destruct Hin as [->|Hin].
      * contradiction.
      * apply (Hfresh k); auto.
Qed.

Lemma normalize_contents_fixed contents :
  normal_contents contents -> normalize_contents contents = contents.
Proof.
  destruct contents as [| | | | |xs|fields]; simpl; try contradiction.
  - intros H. now rewrite normal_texts_fixed.
  - intros [Hnd Hall]. rewrite (localize_fixed fields Hnd Hall []); [reflexivity|].
    simpl. tauto.
Qed.

Lemma normalize_item_fixed item : normal_item item -> normalize_item item = [item].
Proof.
  intros (category & contents & -> & Hc & Hn & Hkeep).
  unfold normalize_item, item_category, item_contents, dict_get_default. simpl.
  rewrite Hc, (normalize_contents_fixed contents Hn).
  destruct Hkeep as [Hne|Hb].
  - apply nonempty_true in Hne. now rewrite Hne.
  - rewrite Hb. now rewrite andb_false_r.
Qed.

Lemma normalize_items_fixed items :
  Forall normal_item items -> normalize_items_from items [] = items.
Proof.
  intros H. rewrite normalize_items_from_spec. simpl.
  induction H as [|item rest Hitem _ IH]; simpl; [reflexivity|].
  now rewrite (normalize_item_fixed item Hitem), IH.
Qed.

(** X12. Building release notes is idempotent: a note in normal form, read
    again as an announcement entry, gives itself; so does every note
    [_build_release_note] has given. *)
Theorem release_note_is_a_fixed_point :
  forall (note : json),
    normal_note note ->
    exists fields, note = JObj fields /\ _build_release_note fields = Some note.
Proof.
  intros note (version & date_label & items & -> & Hv & Hd & Hitems & Hkeep).
  eexists. split; [reflexivity|].
  unfold _build_release_note, release_version, release_date, release_items, entry_items,
    dict_get_default.
  simpl. rewrite Hv, Hd, (normalize_items_fixed items Hitems).
  destruct Hkeep as [Hne|Hne].
  - apply nonempty_true in Hne. now rewrite Hne.
  - destruct items; [congruence|]. now rewrite andb_false_r.
Qed.

Lemma release_note_is_a_fixed_point_witness :
  exists fields,
    JObj [("version", JStr "1.0"); ("date", JStr "");
          ("items",
            JList [JObj [("category", JStr "");
                         ("contents", JObj [("en", JList [JStr "hello"])])]])]
    = JObj fields
    /\ _build_release_note fields
       = Some (JObj [("version", JStr "1.0"); ("date", JStr "");
                     ("items",
                       JList [JObj [("category", JStr "");
                                    ("contents", JObj [("en", JList [JStr "hello"])])]])]).
Proof.
  apply release_note_is_a_fixed_point.
  exists "1.0", "", [JObj [("category", JStr "");
                           ("contents", JObj [("en", JList [JStr "hello"])])]].
  split; [reflexivity|]. split; [reflexivity|]. split; [reflexivity|]. split.
  - constructor; [|constructor].
    exists "", (JObj [("en", JList [JStr "hello"])]).
    split; [reflexivity|]. split; [reflexivity|]. split; [|now right].
    simpl. split.
    + constructor; [simpl; tauto | constructor].
    + constructor; [|constructor]. split; [discriminate|]. split; [reflexivity|].
      exists [JStr "hello"]. split; [reflexivity|]. split; [discriminate|].
      constructor; [|constructor]. exists "hello".
      split; [reflexivity|]. split; [discriminate | reflexivity].
  - left. discriminate.
Defined.

(** ** More on the overrides *)

Lemma override_as_steps vi o :
  override_version_info vi o = fold_left run_step (override_steps o) vi.
Proof.
  unfold override_version_info.
  rewrite !default_to_tag_assign_if, !set_nonempty_assign_if.
  unfold override_steps. simpl.
  destruct (PyStr.nonempty (PyStr.strip (tag_version o))); reflexivity.
Qed.

Lemma is_platform_steps steps :
  forall vi name,
    is_some (get_platform (fold_left run_step steps vi) name) = is_some (get_platform vi name).
Proof.
  induction steps as [|[b [n [k t]]] rest IH]; simpl; intros vi name; [reflexivity|].
  now rewrite IH, is_platform_assign_if.
Qed.

Lemma platform_field_steps steps :
  forall vi name key,
    platform_field (fold_left run_step steps vi) name key
    = field_after steps (is_some (get_platform vi name)) name key (platform_field vi name key).
Proof.
  unfold field_after.
  induction steps as [|[b [n [k t]]] rest IH]; simpl; intros vi name key; [reflexivity|].
  rewrite IH, is_platform_assign_if, platform_field_assign_if.
  destruct (String.eqb_spec name n) as [->|Hne]; [reflexivity|].
  now rewrite !andb_false_r.
Qed.

Lemma dict_keys_set_existing {V : Type} (k : string) (v : V) (d : list (string * V)) :
  dict_get k d <> None -> dict_keys (dict_set k v d) = dict_keys d.
Proof.
  induction d as [|[k' v'] d IH]; simpl; [congruence|].
  destruct (String.eqb k k'); simpl; intros H; [reflexivity|].
  now rewrite IH.
Qed.

Lemma get_platform_entry vi name target :
  get_platform vi name = Some target -> dict_get name vi = Some (JObj target).
Proof.
  unfold get_platform.
  destruct (dict_get name vi) as [[| | | | | |fields]|]; try discriminate.
  now intros H; inversion H.
Qed.

Lemma run_step_keys vi s : dict_keys (run_step vi s) = dict_keys vi.
Proof.
  destruct s as [b [n [k t]]]. unfold run_step, assign_if, assign_platform.
  destruct b; [|reflexivity].
  destruct (get_platform vi n) as [target|] eqn:E; [|reflexivity].
  apply dict_keys_set_existing. rewrite (get_platform_entry _ _ _ E). discriminate.
Qed.

Lemma run_step_entry vi s name :
  get_platform vi name = None \/ name <> fst (snd s) ->
  dict_get name (run_step vi s) = dict_get name vi.
Proof.
  destruct s as [b [n [k t]]]. unfold run_step, assign_if, assign_platform. simpl.
  intros H. destruct b; [|reflexivity].
  destruct (get_platform vi n) as [target|] eqn:E; [|reflexivity].
  apply dict_get_set_neq. destruct H as [H|H]; congruence.
Qed.

Lemma steps_keys steps : forall vi, dict_keys (fold_left run_step steps vi) = dict_keys vi.
Proof.
  induction steps as [|s rest IH]; simpl; intros vi; [reflexivity|].
  now rewrite IH, run_step_keys.
Qed.

Lemma steps_entry steps name :
  forall vi,
    get_platform vi name = None \/ Forall (fun s => name <> fst (snd s)) steps ->
    dict_get name (fold_left run_step steps vi) = dict_get name vi.
Proof.
  induction steps as [|s rest IH]; simpl; intros vi H; [reflexivity|].
  rewrite IH.
  - apply run_step_entry. destruct H as [H|H]; [now left | right; now inversion H].
  - destruct H as [H|H]; [left | right; now inversion H].
    pose proof (is_platform_steps [s] vi name) as Hs. simpl in Hs.
    rewrite H in Hs. now destruct (get_platform (run_step vi s) name).
Qed.

Lemma apply_overrides_version_info merged o vi :
  dict_get "version_info" merged = Some (JObj vi) ->
  dict_get "version_info" (_apply_overrides merged o)
  = Some (JObj (fold_left run_step (override_steps o) vi)).
Proof.
  intros H. unfold _apply_overrides. rewrite H, dict_get_set_eq.
  now rewrite override_as_steps.
Qed.

(** X13. [_apply_overrides] touches nothing of the merged document but the
    value of [version_info]: the keys and their order are kept, every other
    key keeps its value, and when [version_info] is missing or is not an
    object the document is left as it is. *)
Theorem apply_overrides_keeps_other_fields :
  forall (merged : dict) (o : overrides),
    dict_keys (_apply_overrides merged o) = dict_keys merged
    /\ (forall k, k <> "version_info" ->
                  dict_get k (_apply_overrides merged o) = dict_get k merged)
    /\ ((forall vi, dict_get "version_info" merged <> Some (JObj vi)) ->
        _apply_overrides merged o = merged).
Proof.
  intros merged o. unfold _apply_overrides.
  destruct (dict_get "version_info" merged) as [[| | | | | |vi]|] eqn:E;
    try (split; [reflexivity | split; [reflexivity | reflexivity]]).
  split; [|split].
  - apply dict_keys_set_existing. rewrite E. discriminate.
  - intros k Hk. now apply dict_get_set_neq.
  - intros H. exfalso. exact (H vi eq_refl).
Qed.

(** X14. Inside [version_info], [_apply_overrides] keeps the keys and their
    order, leaves every entry that is not one of android, ios and windows or
    that is not an object as it is, keeps an object an object, and in a
    platform object changes no field but [url] and [latest_version]. *)
Theorem apply_overrides_touches_two_fields_of_three_platforms :
  forall (merged : dict) (o : overrides) (vi : dict),
    dict_get "version_info" merged = Some (JObj vi) ->
    exists vi',
      dict_get "version_info" (_apply_overrides merged o) = Some (JObj vi')
      /\ dict_keys vi' = dict_keys vi
      /\ (forall name, get_platform vi name = None \/ ~ In name platform_names ->
                       dict_get name vi' = dict_get name vi)
      /\ (forall name, is_some (get_platform vi' name) = is_some (get_platform vi name))
      /\ (forall name key, key <> "url" -> key <> "latest_version" ->
                           platform_field vi' name key = platform_field vi name key).
Proof.
  intros merged o vi Hvi.
  exists (fold_left run_step (override_steps o) vi).
  split; [now apply apply_overrides_version_info|].
  split; [apply steps_keys|]. split; [|split].
  - intros name [H|H]; apply steps_entry; [now left | right].
    unfold platform_names in H. simpl in H.
    repeat constructor; simpl; intros ->; tauto.
  - intros name. apply is_platform_steps.
  - intros name key Hu Hl. rewrite platform_field_steps.
    apply String.eqb_neq in Hu. apply String.eqb_neq in Hl.
    unfold field_after. simpl. rewrite Hu, Hl.
    now rewrite !andb_false_r.
Qed.

Lemma apply_overrides_touches_two_fields_of_three_platforms_witness :
  exists vi',
    dict_get "version_info" (_apply_overrides Release.merged Release.url_only)
    = Some (JObj vi')
    /\ dict_keys vi' = ["android"; "ios"; "windows"]
    /\ dict_get "windows" vi' = Some (JStr "none").
Proof.
  destruct (apply_overrides_touches_two_fields_of_three_platforms
              Release.merged Release.url_only _ eq_refl)
    as (vi' & H1 & H2 & H3 & _).
  exists vi'. split; [exact H1|]. split; [exact H2|].
  exact (H3 "windows" (or_introl eq_refl)).
Defined.

(** X15. On a platform that is an object of [version_info], a url override
    that is not blank becomes the platform's [url], trimmed; a blank one
    leaves the [url] as it was, whatever the tag and the version override. *)
Theorem url_override_sets_url :
  forall (merged : dict) (o : overrides) (p : platform) (version_info target : dict),
    dict_get "version_info" merged = Some (JObj version_info) ->
    get_platform version_info (platform_name p) = Some target ->
    (PyStr.strip (url_override o p) <> "" ->
       merged_platform_field (_apply_overrides merged o) (platform_name p) "url"
       = Some (JStr (PyStr.strip (url_override o p))))
    /\ (PyStr.strip (url_override o p) = "" ->
        merged_platform_field (_apply_overrides merged o) (platform_name p) "url"
        = dict_get "url" target).
Proof.
  intros merged o p vi target Hvi Hp.
  unfold merged_platform_field.
  rewrite (apply_overrides_version_info _ _ _ Hvi), platform_field_steps.
  assert (Hbase : platform_field vi (platform_name p) "url" = dict_get "url" target).
  { unfold platform_field. now rewrite Hp. }
  rewrite Hbase, Hp. unfold field_after, override_steps.
  split; intros Hu.
  - apply nonempty_true in Hu.
    destruct p; simpl in Hu |- *; rewrite Hu; simpl; rewrite ?andb_false_r; reflexivity.
  - apply nonempty_false in Hu.
    destruct p; simpl in Hu |- *; rewrite Hu; simpl; rewrite ?andb_false_r; reflexivity.
Qed.

Lemma url_override_sets_url_witness :
  dict_get "version_info" Release.merged
  = Some (JObj [("android", JObj [("url", JStr "https://old"); ("latest_version", JStr "1.0.0")]);
                ("ios", JObj [("url", JStr "https://ios"); ("latest_version", JStr "1.0.0")]);
                ("windows", JStr "none")])
  /\ PyStr.strip (url_override Release.url_only Android) = "https://x"
  /\ merged_platform_field (_apply_overrides Release.merged Release.url_only) "android" "url"
     = Some (JStr "https://x")
  /\ PyStr.strip (url_override Release.url_only Ios) = ""
  /\ merged_platform_field (_apply_overrides Release.merged Release.url_only) "ios" "url"
     = Some (JStr "https://ios").
Proof.
  split; [reflexivity | split; [reflexivity|]].
  assert (Hu : PyStr.strip (url_override Release.url_only Android) <> "")
    by (simpl; discriminate).
  split; [|split; [reflexivity|]].
  - exact (proj1 (url_override_sets_url Release.merged Release.url_only Android _ _
                    eq_refl eq_refl) Hu).
  - exact (proj2 (url_override_sets_url Release.merged Release.url_only Ios _ _
                    eq_refl eq_refl) eq_refl).
Defined.

(** X16. Without url and version overrides, blank ones included,
    [_apply_overrides] leaves the merged document as it is, whatever the
    tag: a tag alone changes no version. *)
Theorem tag_alone_changes_nothing :
  forall (merged : dict) (o : overrides),
    (forall p, PyStr.strip (url_override o p) = "") ->
    (forall p, PyStr.strip (version_override o p) = "") ->
    _apply_overrides merged o = merged.
Proof.
  intros merged o Hurl Hver. unfold _apply_overrides.
  destruct (dict_get "version_info" merged) as [[| | | | | |vi]|] eqn:E; try reflexivity.
  rewrite override_as_steps. unfold override_steps.
  pose proof (Hurl Android) as Ua. pose proof (Hurl Ios) as Ui.
  pose proof (Hurl Windows) as Uw. pose proof (Hver Android) as Va.
  pose proof (Hver Ios) as Vi. pose proof (Hver Windows) as Vw.
  simpl in Ua, Ui, Uw, Va, Vi, Vw. rewrite Ua, Ui, Uw, Va, Vi, Vw. simpl.
  rewrite !andb_false_r. simpl. now apply dict_set_same.
Qed.

Lemma tag_alone_changes_nothing_witness :
  _apply_overrides Release.merged
    {| tag_version := "1.2.3"; android_url := " "; ios_url := ""; windows_url := "";
       android_version := ""; ios_version := " "; windows_version := "" |}
  = Release.merged.
Proof.
  apply tag_alone_changes_nothing; intros p; destruct p; reflexivity.
Defined.

Lemma assign_if_fixed b vi name key text :
  (b && is_some (get_platform vi name) = true ->
   platform_field vi name key = Some (JStr text)) ->
  assign_if b vi name key text = vi.
Proof.
  unfold assign_if, assign_platform, platform_field. intros H.
  destruct b; [|reflexivity].
  destruct (get_platform vi name) as [target|] eqn:E; [|reflexivity].
  simpl in H. rewrite (dict_set_same key (JStr text) target (H eq_refl)).
  apply dict_set_same. now apply get_platform_entry.
Qed.

Lemma steps_fixed steps vi :
  Forall (fun s => run_step vi s = vi) steps -> fold_left run_step steps vi = vi.
Proof.
  induction 1 as [|s rest Hs _ IH]; simpl; [reflexivity|]. now rewrite Hs.
Qed.

Lemma override_steps_fixed vi o :
  let vi1 := fold_left run_step (override_steps o) vi in
  fold_left run_step (override_steps o) vi1 = vi1.
Proof.
  intros vi1.
  assert (H1 : forall name,
             is_some (get_platform vi1 name) = is_some (get_platform vi name))
    by (intros; apply is_platform_steps).
  assert (H2 : forall name key,
             platform_field vi1 name key
             = field_after (override_steps o) (is_some (get_platform vi name)) name key
                 (platform_field vi name key))
    by (intros; apply platform_field_steps).
  clearbody vi1. apply steps_fixed. unfold override_steps.
  repeat constructor;
    cbv beta iota delta [run_step];
    apply assign_if_fixed; rewrite H1, H2; unfold field_after, override_steps; simpl;
    repeat match goal with
           | |- context [PyStr.nonempty ?s] => destruct (PyStr.nonempty s); simpl
           end;
    match goal with
    | |- context [is_some ?x] => destruct (is_some x); simpl
    | _ => idtac
    end;
    intros; try discriminate; reflexivity.
Qed.

(** X17. [_apply_overrides] is idempotent: applying the same overrides a
    second time changes nothing more. *)
Theorem apply_overrides_idempotent :
  forall (merged : dict) (o : overrides),
    _apply_overrides (_apply_overrides merged o) o = _apply_overrides merged o.
Proof.
  intros merged o.
  destruct (dict_get "version_info" merged) as [[| | | | | |vi]|] eqn:E;
    try (unfold _apply_overrides; rewrite E; rewrite E; reflexivity).
  unfold _apply_overrides at 1.
  rewrite (apply_overrides_version_info _ _ _ E).
  rewrite override_as_steps, override_steps_fixed.
  apply dict_set_same. now apply apply_overrides_version_info.
Qed.

(** ** The command *)

Example main_release :
  main Scenario.fs Run.release Run.writable
  = ([PrintValidated 2 "2" 1 0;
      MakeParents "dist/update/latest.json";
      WriteText "dist/update/latest.json" Scenario.expected;
      PrintBuilt "dist/update/latest.json"],
     Returns 0).
Proof. reflexivity. Qed.

(** X18. [main] returns 0 exactly when the compilation returns and either
    only validation was asked for or the parent directory could be made and
    the output was written; it returns 1 exactly when the compilation raises
    a [ConfigError], after one error line and nothing else, or when the
    compilation returns, the output is asked for, the parent directory could
    be made and [write_text] raises [OSError]; it returns no other code. *)
Theorem main_exit_code :
  forall (fs : filesystem) (a : arguments) (d : disk),
    (snd (main fs a d) = Returns 0
     <-> (exists merged s, compile_update_config fs = Ok (merged, s))
         /\ (arg_validate_only a = true
             \/ (can_make_parents d = true /\ write d = Written)))
    /\ (snd (main fs a d) = Returns 1
        <-> (exists e, compile_update_config fs = Raise (ConfigError e))
            \/ ((exists merged s, compile_update_config fs = Ok (merged, s))
                /\ arg_validate_only a = false
                /\ can_make_parents d = true
                /\ write d = WriteOSError))
    /\ (forall e, compile_update_config fs = Raise (ConfigError e) ->
                  main fs a d = ([PrintError e], Returns 1))
    /\ (forall code, snd (main fs a d) = Returns code -> code = 0%Z \/ code = 1%Z).
Proof.
  intros fs a d. unfold main.
  destruct (compile_update_config fs) as [[merged s]|e] eqn:Hc.
  - assert (Hok : exists merged0 s0, Ok (merged, s) = Ok (merged0, s0)) by eauto.
    split; [|split; [|split]].
    + destruct (arg_validate_only a), (can_make_parents d), (write d); simpl;
        split; intros H;
        first [ discriminate
              | split; [exact Hok | tauto]
              | reflexivity
              | destruct H as [_ [H|[H1 H2]]]; discriminate ].
    + destruct (arg_validate_only a), (can_make_parents d), (write d); simpl;
        split; intros H;
        first [ discriminate
              | right; split; [exact Hok | tauto]
              | reflexivity
              | destruct H as [[e H]|(_ & H1 & H2 & H3)]; discriminate ].
    + intros e H. discriminate.
    + intros code H.
      destruct (arg_validate_only a), (can_make_parents d), (write d); simpl in H;
        inversion H; auto.
  - destruct e as [c|path|key]; simpl.
    + split; [split; [discriminate | intros [(m & s & H) _]; discriminate]|].
      split; [split; [intros _; left; eauto | reflexivity]|].
      split; [intros e H; now inversion H|].
      intros code H; inversion H; auto.
    + split; [split; [discriminate | intros [(m & s & H) _]; discriminate]|].
      split; [split; [discriminate
                     | intros [[e H]|[(m & s & H) _]]; discriminate]|].
      split; discriminate.
    + split; [split; [discriminate | intros [(m & s & H) _]; discriminate]|].
      split; [split; [discriminate
                     | intros [[e H]|[(m & s & H) _]]; discriminate]|].
      split; discriminate.
Qed.

(** X19. [main] writes at most what it validated: a call of [write_text] is
    made on the output path of the arguments, only when validation alone was
    not asked for and the compilation returned, and the document it writes is
    the compiled one with the overrides applied.  When only validation is
    asked for, or the compilation does not return, the output path is not
    touched at all, neither by [mkdir] nor by [write_text]. *)
Theorem main_writes_only_the_merged_document :
  forall (fs : filesystem) (a : arguments) (d : disk),
    (forall output document,
        In (WriteText output document) (fst (main fs a d)) ->
        arg_validate_only a = false
        /\ output = arg_output a
        /\ exists merged s,
            compile_update_config fs = Ok (merged, s)
            /\ document = _apply_overrides merged (arg_overrides a))
    /\ (arg_validate_only a = true -> existsb touches_output (fst (main fs a d)) = false)
    /\ ((forall out, compile_update_config fs <> Ok out) ->
        existsb touches_output (fst (main fs a d)) = false).
Proof.
  intros fs a d. unfold main.
  destruct (compile_update_config fs) as [[merged s]|e] eqn:Hc.
  - split; [|split].
    + intros output document Hin.
      destruct (arg_validate_only a), (can_make_parents d), (write d); simpl in Hin;
        repeat (destruct Hin as [Hin|Hin]; try discriminate); try contradiction;
        inversion Hin; subst;
        (split; [reflexivity | split; [reflexivity | eauto]]).
    + intros ->. reflexivity.
    + intros H. exfalso. exact (H _ eq_refl).
  - destruct e as [c|path|key]; simpl;
      (split; [intros output document Hin; simpl in Hin;
               repeat (destruct Hin as [Hin|Hin]; try discriminate); contradiction
              | split; reflexivity]).
Qed.

Lemma main_writes_only_the_merged_document_witness :
  In (WriteText "dist/update/latest.json" Scenario.expected)
     (fst (main Scenario.fs Run.release Run.writable))
  /\ arg_validate_only Run.release = false
  /\ (exists merged s,
        compile_update_config Scenario.fs = Ok (merged, s)
        /\ Scenario.expected = _apply_overrides merged (arg_overrides Run.release))
  /\ arg_validate_only Run.validate = true
  /\ existsb touches_output (fst (main Scenario.fs Run.validate Run.writable)) = false.
Proof.
  assert (Hin : In (WriteText "dist/update/latest.json" Scenario.expected)
                   (fst (main Scenario.fs Run.release Run.writable))).
  { simpl. right. right. left. reflexivity. }
  split; [exact Hin|].
  destruct (proj1 (main_writes_only_the_merged_document Scenario.fs Run.release Run.writable)
              _ _ Hin) as (H1 & _ & H3).
  split; [exact H1|]. split; [exact H3|]. split; [reflexivity|].
  exact (proj1 (proj2 (main_writes_only_the_merged_document
                         Scenario.fs Run.validate Run.writable)) eq_refl).
Defined.

(** ** The order of the checks on the ids *)

Lemma normalize_ids_stops pre :
  forall value post where_ ids_pre,
    normalize_ids pre where_ = Ok ids_pre ->
    (forall text, _normalize_id value where_ <> Ok text) ->
    normalize_ids (pre ++ value :: post) where_
    = Raise (ConfigError (InvalidAnnouncementId where_ value)).
Proof.
  induction pre as [|first rest IH]; simpl; intros value post where_ ids_pre Hpre Hbad.
  - destruct (_normalize_id value where_) as [text|e] eqn:E.
    + exfalso. exact (Hbad text eq_refl).
    + simpl. now rewrite (normalize_id_where _ _ _ E).
  - destruct (_normalize_id first where_) as [id|]; simpl in *; [|discriminate].
    destruct (normalize_ids rest where_) as [others|] eqn:E; simpl in Hpre; [|discriminate].
    now rewrite (IH value post where_ others E Hbad).
Qed.

(** X20. The first entry of [announcement_ids] that is no id is what
    [compile_update_config] reports, with the invalid-id error naming
    [manifest.announcement_ids] and that entry; repetitions among the ids and
    later entries that are no ids do not come into it, nor does any file
    beside the manifest. *)
Theorem first_invalid_id_is_reported :
  forall (fs : filesystem) (manifest : dict) (pre post : list json) (value : json)
         (ids_pre : list string),
    fs manifest_path = Some (Json (JObj manifest)) ->
    dict_get "announcement_ids" manifest = Some (JList (pre ++ value :: post)) ->
    normalize_ids pre "manifest.announcement_ids" = Ok ids_pre ->
    (forall text, _normalize_id value "manifest.announcement_ids" <> Ok text) ->
    compile_update_config fs
    = Raise (ConfigError (InvalidAnnouncementId "manifest.announcement_ids" value)).
Proof.
  intros fs manifest pre post value ids_pre Hm Hraw Hpre Hbad.
  rewrite (compile_reads_manifest _ _ Hm).
  unfold read_announcement_ids, dict_get_default. rewrite Hraw.
  pose proof (normalize_ids_stops pre value post _ _ Hpre Hbad) as Hstop.
  destruct (pre ++ value :: post)%list as [|first others] eqn:E.
  - destruct pre; discriminate.
  - rewrite Hstop. reflexivity.
Qed.

Lemma first_invalid_id_is_reported_witness :
  InvalidId.fs manifest_path = Some (Json (JObj InvalidId.manifest))
  /\ dict_get "announcement_ids" InvalidId.manifest
     = Some (JList ([JInt 1] ++ JStr "x" :: [JInt 1]))
  /\ normalize_ids [JInt 1] "manifest.announcement_ids" = Ok ["1"]
  /\ compile_update_config InvalidId.fs
     = Raise (ConfigError (InvalidAnnouncementId "manifest.announcement_ids" (JStr "x"))).
Proof.
  split; [reflexivity | split; [reflexivity | split; [reflexivity|]]].
  refine (first_invalid_id_is_reported InvalidId.fs InvalidId.manifest
            [JInt 1] [JInt 1] (JStr "x") ["1"] eq_refl eq_refl eq_refl _).
  intros text. simpl. discriminate.
Defined.
